(** * yubikey_setup: the dependency provisioning engine of [setup.py]

    A shallow embedding of [src/setup.py] and the properties its
    specification states about it.

    The script talks to a terminal, spawns subprocesses and touches the
    file system.  All of that is made explicit here: a [World] record holds
    the process-wide flag [PRE_INSTALL_RUNNED], the memo of [get_os_info],
    what the terminal will still deliver, the file system, and a log of
    every prompt, printed line and spawned command.  Functions of the script
    become computations [M A] that thread the world and may raise. *)

From Stdlib Require Import ZArith NArith Ascii Lia.
From stdpp Require Import base option list strings gmap.

Local Open Scope Z_scope.

(** ** Python string methods used by the script

    Strings are byte strings here; case mapping and white space are the
    ASCII ones. *)

Module Str.

Definition chr (n : nat) : string := String (ascii_of_nat n) EmptyString.

(** [str.join] *)
Definition join (sep : string) (l : list string) : string := String.concat sep l.

(** [c.lower()] on one character *)
Definition lower_ascii (c : ascii) : ascii :=
  let n := nat_of_ascii c in
  if ((65 <=? n) && (n <=? 90))%nat then ascii_of_nat (n + 32) else c.

(** [s.lower()] *)
Fixpoint lower (s : string) : string :=
  match s with
  | EmptyString => EmptyString
  | String c s' => String (lower_ascii c) (lower s')
  end.

(** [c.isspace()]: tab, line feed, vertical tab, form feed, carriage
    return, the four separators 28..31 and the blank. *)
Definition isspace (c : ascii) : bool :=
  let n := nat_of_ascii c in
  (((9 <=? n) && (n <=? 13)) || ((28 <=? n) && (n <=? 32)))%nat.

(** [s.lstrip()] *)
Fixpoint lstrip (s : string) : string :=
  match s with
  | EmptyString => EmptyString
  | String c s' => if isspace c then lstrip s' else s
  end.

(** [s.rstrip()] *)
Fixpoint rstrip (s : string) : string :=
  match s with
  | EmptyString => EmptyString
  | String c s' =>
      match rstrip s' with
      | EmptyString => if isspace c then EmptyString else String c EmptyString
      | r => String c r
      end
  end.

(** [s.strip()] *)
Definition strip (s : string) : string := rstrip (lstrip s).

(** [s.startswith(p)] *)
Definition startswith (p s : string) : bool := String.prefix p s.

(** [sub in s] *)
Fixpoint contains (sub s : string) : bool :=
  String.prefix sub s ||
  match s with
  | EmptyString => false
  | String _ s' => contains sub s'
  end.

(** [s.split(sep)] for a one-character separator: always at least one
    piece, empty pieces are kept. *)
Fixpoint split (sep : ascii) (s : string) : list string :=
  match s with
  | EmptyString => [EmptyString]
  | String c s' =>
      if Ascii.eqb c sep then EmptyString :: split sep s'
      else match split sep s' with
           | [] => [String c EmptyString]
           | p :: ps => String c p :: ps
           end
  end.

(** [s[n:]] *)
Fixpoint drop (n : nat) (s : string) : string :=
  match n, s with
  | O, _ => s
  | S _, EmptyString => EmptyString
  | S n', String _ s' => drop n' s'
  end.

(** [s.replace(old, new, 1)] for a non-empty [old]: only the leftmost
    occurrence is replaced. *)
Fixpoint replace_first (old new s : string) : string :=
  if String.prefix old s then String.append new (drop (String.length old) s)
  else match s with
       | EmptyString => EmptyString
       | String c s' => String c (replace_first old new s')
       end.

(** [s.split()[0]]: the first maximal run of non-blank characters
    (the empty string stands for "no token"). *)
Fixpoint take_token (s : string) : string :=
  match s with
  | EmptyString => EmptyString
  | String c s' => if isspace c then EmptyString else String c (take_token s')
  end.
Definition first_token (s : string) : string := take_token (lstrip s).

End Str.

(** ** Terminal colours and fixed texts *)

Definition ESC : string := Str.chr 27.
Definition TAB : string := Str.chr 9.
Definition NL : string := Str.chr 10.

Definition CL_NORM : string := ESC +:+ "[0m".
Definition CL_YELLOW : string := ESC +:+ "[93m".
Definition CL_GREEN : string := ESC +:+ "[92m".
Definition CL_RED : string := ESC +:+ "[91m".
Definition CL_GREY : string := ESC +:+ "[90m".

Definition SUPPORTED_OS : list string := ["linux"].
Definition RECOMENDED_DISTROS : list string := ["tails"].

Definition YES : string := "Yes".
Definition NO : string := "No".
Definition YES_OR_NO : string :=
  "'" +:+ CL_GREEN +:+ YES +:+ CL_NORM +:+ "' or '" +:+ CL_RED +:+ NO +:+ CL_NORM +:+ "'".

Definition WRONG_OS_MSG : string :=
  CL_RED +:+ "Srry, your os is not currently supported by script" +:+ CL_NORM.
Definition RECOMMEND_OS_MSG : string :=
  CL_YELLOW +:+ "It is strongly recommended to use hardened OS distros to work with this script."
  +:+ NL +:+ "Such as " +:+ Str.join " or " RECOMENDED_DISTROS +:+ "." +:+ CL_NORM.
Definition BEGIN_MSG : string := NL +:+ "<< TODO BEGIN MSG >>" +:+ NL.

(** ** The package registry

    A command set is [None], one string, or a sequence of strings; an
    availability check is a command, or a command with the exit code that
    means "installed". *)

Inductive Cmds :=
| CmdNone
| CmdStr (cmd : string)
| CmdSeq (cmds : list string).

Inductive Check :=
| CheckStr (cmd : string)
| CheckPair (cmd : string) (req_code : Z).

Record Package := {
  PKGS_NAME : string;
  PKGS_COMMENT : string;
  PKGS_CHECK : Check;
  PKGS_ISNTALL : gmap string Cmds
}.

(** ** The world of one process *)

Inductive exn :=
| KeyboardInterrupt
| EOFError
| FileNotFoundError
| NotADirectoryError
| FileExistsError
| KeyError
| TypeError.

Global Instance exn_eq_dec : EqDecision exn.
Proof. solve_decision. Defined.

(** What a blocking read of the terminal delivers: a line, or Ctrl+c.  When
    nothing is left the stream is at end of file. *)
Inductive key :=
| Line (s : string)
| CtrlC.

Inductive event :=
| EvInput (prompt : string)
| EvPrint (text : string)
| EvExec (cmd : string) (interactive : bool) (code : Z).

(** File system: a map from path strings to what is there. *)
Inductive node :=
| File (mode : N)
| Dir (mode : N).

Record World := {
  PRE_INSTALL_RUNNED : bool;
  os_info_cache : option (string * string);
  stdin : list key;
  log : list event;          (* newest first *)
  fs : gmap string node
}.

Definition set_PRE_INSTALL_RUNNED (b : bool) (w : World) : World :=
  {| PRE_INSTALL_RUNNED := b; os_info_cache := os_info_cache w;
     stdin := stdin w; log := log w; fs := fs w |}.
Definition set_os_info_cache (c : option (string * string)) (w : World) : World :=
  {| PRE_INSTALL_RUNNED := PRE_INSTALL_RUNNED w; os_info_cache := c;
     stdin := stdin w; log := log w; fs := fs w |}.
Definition set_stdin (ks : list key) (w : World) : World :=
  {| PRE_INSTALL_RUNNED := PRE_INSTALL_RUNNED w; os_info_cache := os_info_cache w;
     stdin := ks; log := log w; fs := fs w |}.
Definition emit (ev : event) (w : World) : World :=
  {| PRE_INSTALL_RUNNED := PRE_INSTALL_RUNNED w; os_info_cache := os_info_cache w;
     stdin := stdin w; log := ev :: log w; fs := fs w |}.
Definition set_fs (f : gmap string node) (w : World) : World :=
  {| PRE_INSTALL_RUNNED := PRE_INSTALL_RUNNED w; os_info_cache := os_info_cache w;
     stdin := stdin w; log := log w; fs := f |}.

(** ** Computations: state, exceptions, and running out of fuel *)

Inductive outcome (A : Type) :=
| Ret (a : A)
| Raise (e : exn)
| Diverge.
Arguments Ret {A} a.
Arguments Raise {A} e.
Arguments Diverge {A}.

Definition M (A : Type) : Type := World -> outcome A * World.

Definition ret {A} (a : A) : M A := fun w => (Ret a, w).
Definition raise {A} (e : exn) : M A := fun w => (Raise e, w).
Definition diverge {A} : M A := fun w => (Diverge, w).

Definition bind {A B} (m : M A) (k : A -> M B) : M B :=
  fun w =>
    match m w with
    | (Ret a, w') => k a w'
    | (Raise e, w') => (Raise e, w')
    | (Diverge, w') => (Diverge, w')
    end.

Declare Scope py_scope.
Delimit Scope py_scope with py.
Notation "'let*' x := m 'in' k" := (bind m (fun x => k))
  (at level 10, x name, m at level 100, k at level 200) : py_scope.
Notation "'let*' ' pat := m 'in' k" := (bind m (fun x => match x with pat => k end))
  (at level 10, pat pattern, m at level 100, k at level 200) : py_scope.
Notation "m ;; k" := (bind m (fun _ => k))
  (at level 100, k at level 200, right associativity) : py_scope.
Local Open Scope py_scope.

(** [try: m  except e: h] *)
Definition try_except {A} (m : M A) (e : exn) (h : M A) : M A :=
  fun w =>
    match m w with
    | (Raise e', w') => if decide (e' = e) then h w' else (Raise e', w')
    | r => r
    end.

(** [for x in l: body(x)], with no [break] or [return] in the body *)
Fixpoint for_each {A} (l : list A) (body : A -> M unit) : M unit :=
  match l with
  | [] => ret tt
  | x :: l' => body x ;; for_each l' body
  end.

(** [print(text)] *)
Definition print (text : string) : M unit :=
  fun w => (Ret tt, emit (EvPrint text) w).

(** [input(prompt)]: shows the prompt, then blocks on the terminal. *)
Definition input (prompt : string) : M string :=
  fun w =>
    let w := emit (EvInput prompt) w in
    match stdin w with
    | [] => (Raise EOFError, w)
    | CtrlC :: ks => (Raise KeyboardInterrupt, set_stdin ks w)
    | Line s :: ks => (Ret s, set_stdin ks w)
    end.

(** ** The host and the script's tables

    [Host] is what the operating system answers: [platform.system()],
    [platform.version()], [os.getlogin()] (the process has a controlling
    terminal, so a name comes back), the process umask, and what a shell
    command does when spawned ([Popen(cmd, shell=True)] followed by
    [wait()]): its exit status, what it wrote, and the file system it leaves
    behind.  The file system has directories and regular files, no links.
    [Config] holds the module-level tables of the script; [TMP_DIR] carries
    a random token, so it is a parameter too. *)

Record Completed := {
  returncode : Z;
  proc_stdout : string;
  proc_stderr : string
}.

Class Host := {
  platform_system : string;
  platform_version : string;
  os_getlogin : string;
  umask : N;
  Popen : string -> bool -> gmap string node -> Completed * gmap string node
}.

Class Config := {
  TMP_DIR : string;
  PKGS : list Package;
  PRE_INSTALL : gmap string Cmds
}.

(** ** File-system calls of the standard library *)

Definition o700 : N := 448.   (* 0o700 *)
Definition o777 : N := 511.   (* 0o777 *)
Definition o077 : N := 63.    (* 0o077: the group and other bits *)

Definition is_dir (f : gmap string node) (path : string) : bool :=
  match f !! path with
  | Some (Dir _) => true
  | _ => false
  end.

Definition is_file (f : gmap string node) (path : string) : bool :=
  match f !! path with
  | Some (File _) => true
  | _ => false
  end.

(** [os.path.isdir(path)] *)
Definition os_path_isdir (path : string) : M bool :=
  fun w => (Ret (is_dir (fs w) path), w).

Definition ends_with_slash (s : string) : bool :=
  match String.rev s with
  | String c _ => Ascii.eqb c "/"
  | EmptyString => false
  end.

(** [os.path.join(a, b)] *)
Definition os_path_join (a b : string) : string :=
  if Str.startswith "/" b then b
  else if String.eqb a EmptyString || ends_with_slash a then a +:+ b
  else a +:+ "/" +:+ b.

(** The proper ancestors of a path, outermost first; the root directory
    itself is not an entry of the map. *)
Fixpoint parents_go (seen : string) (s : string) : list string :=
  match s with
  | EmptyString => []
  | String c s' =>
      (if Ascii.eqb c "/" && negb (String.eqb seen EmptyString)
       then [String.rev seen] else [])
      ++ parents_go (String c seen) s'
  end.
Definition parents (path : string) : list string := parents_go EmptyString path.

(** [k] is [top] itself or lies below it. *)
Definition under (top k : string) : bool :=
  String.eqb k top || Str.startswith (os_path_join top EmptyString) k.

(** The name of [k] inside directory [top], when [k] is an entry of it. *)
Definition child_name (top k : string) : option string :=
  let pre := os_path_join top EmptyString in
  if Str.startswith pre k then
    let r := Str.drop (String.length pre) k in
    if String.eqb r EmptyString || Str.contains "/" r then None else Some r
  else None.

(** [os.scandir(top)], already sorted into directory names and other
    names the way [os.walk] does; [None] when [top] cannot be listed. *)
Definition os_scandir (f : gmap string node) (top : string)
  : option (list string * list string) :=
  if is_dir f top then
    let entries :=
      omap (fun kn => match child_name top kn.1 with
                      | Some r => Some (r, kn.2)
                      | None => None
                      end) (map_to_list f) in
    Some (omap (fun rn => match rn.2 with Dir _ => Some rn.1 | File _ => None end) entries,
          omap (fun rn => match rn.2 with File _ => Some rn.1 | Dir _ => None end) entries)
  else None.

(** A generator with a single [yield] that sits outside any [try]: the
    code before the [yield], and the code after it. *)
Record generator (Y : Type) := {
  before_yield : M Y;
  after_yield : M unit
}.
Arguments before_yield {Y} _.
Arguments after_yield {Y} _.

Section Engine.
Context `{Host} `{Config}.

(** [os.makedirs(name, mode)] with [exist_ok=False]: missing ancestors get
    the default mode, the leaf gets [mode]; the umask applies to both. *)
Definition os_makedirs (name : string) (mode : N) : M unit :=
  fun w =>
    match fs w !! name with
    | Some _ => (Raise FileExistsError, w)
    | None =>
        if existsb (is_file (fs w)) (parents name) then (Raise NotADirectoryError, w)
        else
          let f1 := foldl (fun f p => match f !! p with
                                      | None => <[p := Dir (N.ldiff o777 umask)]> f
                                      | Some _ => f
                                      end) (fs w) (parents name) in
          (Ret tt, set_fs (<[name := Dir (N.ldiff mode umask)]> f1) w)
    end.

(** [shutil.rmtree(path)].  A path that is not there raises
    [FileNotFoundError], unless one of its ancestors is a regular file:
    then the path cannot even be looked up and the error is
    [NotADirectoryError], as it is for a regular file itself. *)
Definition shutil_rmtree (path : string) : M unit :=
  fun w =>
    match fs w !! path with
    | None =>
        if existsb (is_file (fs w)) (parents path) then (Raise NotADirectoryError, w)
        else (Raise FileNotFoundError, w)
    | Some (File _) => (Raise NotADirectoryError, w)
    | Some (Dir _) =>
        (Ret tt, set_fs (filter (fun kn => under path kn.1 = false) (fs w)) w)
    end.

(** [for root, dirs, files in os.walk(top): body(root, dirs, files)]:
    top-down and lazy, so a directory is listed only after the body has
    run for its parent; a directory that cannot be listed is skipped. *)
Fixpoint os_walk (depth : nat) (top : string)
         (body : string -> list string -> list string -> M unit) : M unit :=
  match depth with
  | O => diverge
  | S depth' =>
      fun w =>
        match os_scandir (fs w) top with
        | None => (Ret tt, w)
        | Some (dirs, files) =>
            (body top dirs files ;;
             for_each dirs (fun dr => os_walk depth' (os_path_join top dr) body)) w
        end
  end.

(** *** Command runner *)

Definition run_cmd (cmd : option string) (interactive : bool) : M (Z * string * string) :=
  match cmd with
  | None => ret (0, EmptyString, EmptyString)
  | Some cmd =>
      fun w =>
        let '(proc, f') := Popen cmd interactive (fs w) in
        let code := returncode proc in
        let w' := emit (EvExec cmd interactive code) (set_fs f' w) in
        if interactive then (Ret (code, EmptyString, EmptyString), w')
        else (Ret (code, proc_stdout proc, proc_stderr proc), w')
  end.

Definition is_comment (cmd : string) : bool := Str.startswith "#" (Str.strip cmd).

Fixpoint run_cmds_for (cmds : list string) (interactive : bool) : M Z :=
  match cmds with
  | [] => ret 0
  | cmd :: rest =>
      if is_comment cmd then run_cmds_for rest interactive
      else
        let* '(code, _, _) := run_cmd (Some cmd) interactive in
        if negb (code =? 0) then ret code
        else run_cmds_for rest interactive
  end.

Definition run_cmds (cmds : Cmds) (interactive : bool) : M Z :=
  match cmds with
  | CmdNone => ret 0
  | CmdStr cmd => run_cmds_for [cmd] interactive
  | CmdSeq cmds => run_cmds_for cmds interactive
  end.

(** *** Confirmation gate *)

Definition ask_continue : M unit :=
  input ("Press " +:+ CL_GREEN +:+ "Enter" +:+ CL_NORM +:+ " when you are ready: ") ;;
  ret tt.

Fixpoint ask_loop (fuel : nat) (prompt : string) : M bool :=
  match fuel with
  | O => diverge
  | S fuel' =>
      let* inp := input (prompt +:+ " (" +:+ YES_OR_NO +:+ "): ") in
      if String.eqb inp YES then ret true
      else if String.eqb inp NO then ret false
      else
        print (TAB +:+ CL_YELLOW +:+ "Please type " +:+ YES_OR_NO) ;;
        ask_loop fuel' prompt
  end.

(** Every turn of the loop reads from the terminal, so one more turn than
    there are keys left is always enough. *)
Definition ask (prompt : string) : M bool :=
  fun w => ask_loop (S (length (stdin w))) prompt w.

Definition preview_line (prompt cmd : string) : string :=
  if Str.startswith "#" (Str.lstrip cmd) then
    prompt +:+ TAB +:+ CL_GREY +:+ cmd +:+ CL_NORM +:+ NL
  else if Str.startswith "sudo " (Str.lstrip cmd) then
    prompt +:+ TAB +:+ CL_YELLOW +:+ "sudo" +:+ CL_NORM +:+ " "
           +:+ Str.replace_first "sudo " EmptyString cmd +:+ NL
  else prompt +:+ TAB +:+ cmd +:+ NL.

Definition ask_execute (cmds : Cmds) : M bool :=
  match cmds with
  | CmdNone => ret true
  | _ =>
      let cmds := match cmds with
                  | CmdStr cmd => [cmd]
                  | CmdSeq cmds => cmds
                  | CmdNone => []
                  end in
      let prompt := foldl preview_line ("Those commands will be executed:" +:+ NL) cmds in
      ask (prompt +:+ NL +:+ "Do you want to execute them?")
  end.

(** *** Environment detector *)

(** [@lru_cache(maxsize=None)] on a function without arguments: the first
    returned value is kept and served from then on. *)
Definition lru_cache (f : M (string * string)) : M (string * string) :=
  fun w =>
    match os_info_cache w with
    | Some r => (Ret r, w)
    | None =>
        match f w with
        | (Ret r, w') => (Ret r, set_os_info_cache (Some r) w')
        | other => other
        end
    end.

(** Lines 131-132: the three markers of the hardened distribution. *)
Definition looks_like_tails : M bool :=
  let* d1 := os_path_isdir "/etc/tails" in
  if negb d1 then ret false
  else
    let* d2 := os_path_isdir "/etc/amnesia" in
    if negb d2 then ret false
    else ret (String.eqb os_getlogin "amnesia").

Definition get_os_info_body : M (string * string) :=
  let system := Str.lower platform_system in
  let version := platform_version in
  if String.eqb system "linux" then
    let* tails := (if Str.contains "Debian" version then looks_like_tails
                   else ret false) in
    if tails then ret ("linux", "tails")
    else
      let version := Str.split "-" version in
      if (length version <? 2)%nat then ret (system, nth 0 version EmptyString)
      else
        let version := nth 0 (Str.split " " (nth 1 version EmptyString)) EmptyString in
        let version := Str.lower version in
        ret (system, version)
  else
    let version := Str.lower version in
    ret (system, version).

Definition get_os_info : M (string * string) := lru_cache get_os_info_body.

(** *** Install planner *)

Definition has_recipe (distro : string) (dep : Package) : bool :=
  bool_decide (is_Some (PKGS_ISNTALL dep !! distro)).

Definition chek_can_install (deps : list Package) (distro : string)
  : list Package * list Package :=
  foldl (fun acc dep =>
           let '(available, not_available) := acc in
           if has_recipe distro dep then (available ++ [dep], not_available)
           else (available, not_available ++ [dep]))
        ([], []) deps.

(** *** Pre-install step and batch install *)

Definition run_pre_install (distro : string) : M bool :=
  fun w =>
    if PRE_INSTALL_RUNNED w then (Ret true, w)
    else
      (match PRE_INSTALL !! distro with
       | None => ret true
       | Some cmds =>
           let* ok := ask_execute cmds in
           if negb ok then ret false
           else
             let* code := run_cmds cmds true in
             ret (code =? 0)
       end) (set_PRE_INSTALL_RUNNED true w).

Fixpoint install_deps_for (distro : string) (deps : list Package)
         (commands : list string) : M (list string) :=
  match deps with
  | [] => ret commands
  | dep :: rest =>
      match PKGS_ISNTALL dep !! distro with
      | None => raise KeyError
      | Some (CmdStr cmd) => install_deps_for distro rest (commands ++ [cmd])
      | Some (CmdSeq cmd) => install_deps_for distro rest (commands ++ cmd)
      | Some CmdNone => raise TypeError
      end
  end.

Definition install_deps (distro : string) (deps : list Package) : M bool :=
  let* commands := install_deps_for distro deps [] in
  let* ok := ask_execute (CmdSeq commands) in
  if negb ok then ret false
  else
    let* code := run_cmds (CmdSeq commands) true in
    ret (code =? 0).

(** *** Provisioning loop *)

Definition check_of (pkg : Package) : string * Z :=
  match PKGS_CHECK pkg with
  | CheckStr cmd => (cmd, 0)
  | CheckPair cmd req_code => (cmd, req_code)
  end.

(** Lines 245-254: probe every package, collect the unsatisfied ones. *)
Fixpoint probe_for (pkgs : list Package) (to_install : list Package)
  : M (list Package) :=
  match pkgs with
  | [] => ret to_install
  | pkg :: rest =>
      let '(check_cmd, req_code) := check_of pkg in
      let* '(code, _, _) := run_cmd (Some check_cmd) false in
      if negb (code =? req_code) then probe_for rest (to_install ++ [pkg])
      else probe_for rest to_install
  end.

(** One turn of the [while True] of [check_deps]: [inr b] is [return b],
    [inl recheck] goes round again with that value of [recheck]. *)
Definition check_deps_turn (distro : string) (recheck : bool) : M (bool + bool) :=
  let* to_install := probe_for PKGS [] in
  if (length to_install =? 0)%nat then ret (inr true)
  else
    (if negb recheck then
       print "This script needs to instal those dependencies:" ;;
       for_each to_install (fun pkg =>
         print (TAB +:+ CL_GREEN +:+ PKGS_NAME pkg +:+ CL_NORM
                    +:+ " (" +:+ PKGS_COMMENT pkg +:+ ")")) ;;
       print ("Press " +:+ CL_GREY +:+ "Ctrl+c" +:+ CL_NORM
              +:+ " to skip packages management " +:+ CL_GREY
              +:+ "at your own risk" +:+ CL_NORM)
     else ret tt) ;;
    let '(auto, manual) := chek_can_install to_install distro in
    if negb (length manual =? 0)%nat then
      (if (length auto =? 0)%nat then
         print "They cannot be install automatically on current system"
       else
         let prompt := CL_YELLOW +:+ Str.join " " (map PKGS_NAME manual) +:+ CL_NORM in
         print ("Those packages cannot be install automatically on current system:"
                +:+ NL +:+ TAB +:+ prompt)) ;;
      print "Please install them manually before continue" ;;
      ask_continue ;;
      ret (inl true)
    else
      print "They can be install automatically" ;;
      let* yes := ask "Do you want to install them?" in
      if negb yes then
        print "Please install them manually before continue" ;;
        ask_continue ;;
        ret (inl false)
      else
        let* pre := run_pre_install distro in
        let* failed :=
          (if negb pre then ret true
           else
             let* ok := install_deps distro auto in
             ret (negb ok)) in
        if failed then
          print (NL +:+ CL_RED +:+ "Failed to install script dependencies" +:+ CL_NORM) ;;
          ret (inr false)
        else ret (inl false).

Fixpoint check_deps_while (fuel : nat) (distro : string) (recheck : bool) : M bool :=
  match fuel with
  | O => diverge
  | S fuel' =>
      let* turn := check_deps_turn distro recheck in
      match turn with
      | inr result => ret result
      | inl recheck' => check_deps_while fuel' distro recheck'
      end
  end.

Definition check_deps (fuel : nat) : M bool :=
  let* '(_, distro) := get_os_info in
  check_deps_while fuel distro false.

Definition check_os : M bool :=
  let* '(os, distro) := get_os_info in
  if negb (bool_decide (os ∈ SUPPORTED_OS)) then
    print WRONG_OS_MSG ;;
    print RECOMMEND_OS_MSG ;;
    ret false
  else if negb (bool_decide (distro ∈ RECOMENDED_DISTROS)) then
    print RECOMMEND_OS_MSG ;;
    ask "Do your want to continue on current system"
  else ret true.

(** *** Secure workspace *)

Fixpoint fs_del (fuel : nat) (path : string) : M unit :=
  match fuel with
  | O => diverge
  | S fuel' =>
      let* isdir := os_path_isdir path in
      (if isdir then
         os_walk (S fuel') path (fun root dirs files =>
           for_each dirs (fun dr => fs_del fuel' (os_path_join root dr)) ;;
           for_each files (fun file => fs_del fuel' (os_path_join root file)))
       else
         run_cmd (Some ("shred -f -u -z " +:+ path)) false ;;
         ret tt) ;;
      try_except (shutil_rmtree path) FileNotFoundError (ret tt)
  end.

(** [with contextmanager(g)() as y: body(y)].  When the body returns the
    generator is resumed and runs to its end.  When the body raises, the
    exception is thrown into the generator at its [yield]; nothing there
    catches it, so the rest of the generator is skipped and the exception
    leaves the [with]. *)
Definition with_contextmanager {Y B} (g : generator Y) (body : Y -> M B) : M B :=
  let* y := before_yield g in
  fun w =>
    match body y w with
    | (Ret b, w') => (after_yield g ;; ret b) w'
    | (Raise e, w') => (Raise e, w')
    | (Diverge, w') => (Diverge, w')
    end.

Definition tmp_dir (fuel : nat) : generator string :=
  {| before_yield := os_makedirs TMP_DIR o700 ;; ret TMP_DIR;
     after_yield := fs_del fuel TMP_DIR |}.

(** *** Top level *)

Definition init (fuel : nat) : M bool :=
  let* ok := check_os in
  if negb ok then ret false
  else
    let* stop :=
      try_except
        (let* deps := check_deps fuel in ret (negb deps))
        KeyboardInterrupt
        (print (NL +:+ NL +:+ CL_RED +:+ "Dependencies cheking interrupted by user" +:+ CL_NORM) ;;
         print (CL_YELLOW +:+ "Continue without them. " +:+ CL_RED
                +:+ "It may cause problems" +:+ CL_NORM +:+ NL) ;;
         ret false) in
    if stop then ret false else ret true.

Definition main (fuel : nat) : M unit :=
  let* ok := init fuel in
  if negb ok then ret tt
  else print BEGIN_MSG.

(** Lines 324-330, the [__main__] block. *)
Definition main_block (fuel : nat) : M unit :=
  with_contextmanager (tmp_dir fuel) (fun _ =>
    try_except (main fuel) KeyboardInterrupt
               (print (NL +:+ CL_RED +:+ "Interrupted by user" +:+ CL_NORM))) ;;
  print (NL +:+ "Bye").

End Engine.

Arguments run_cmd : simpl never.
Arguments input : simpl never.
Arguments print : simpl never.
Arguments ask : simpl never.
Arguments ask_execute : simpl never.
Arguments get_os_info : simpl never.
Arguments run_pre_install : simpl never.
Arguments install_deps : simpl never.
Arguments os_path_isdir : simpl never.
Arguments shutil_rmtree : simpl never.
Arguments os_makedirs : simpl never.

(** ** The tables of the script as shipped *)

Module Source.

Definition SCRIPT_NAME : string := "YUBIKEY_SETUP".

(** [secrets.token_urlsafe(10)] is not modelled: the token is given. *)
Definition TMP_DIR (token : string) : string :=
  os_path_join "/tmp" (SCRIPT_NAME +:+ "_" +:+ token).

Definition PKGS (TMP_DIR : string) : list Package := [
  {| PKGS_NAME := "gnupg";
     PKGS_COMMENT := "GNU Privacy Guard";
     PKGS_CHECK := CheckStr "gpg --version";
     PKGS_ISNTALL := ∅ |};
  {| PKGS_NAME := "argon2";
     PKGS_COMMENT := "memory & CPU hard hash function";
     PKGS_CHECK := CheckPair "argon2 -h" 1;
     PKGS_ISNTALL := {[ "tails" := CmdStr "sudo apt -qq install -y argon2" ]} |};
  {| PKGS_NAME := "ykman";
     PKGS_COMMENT := "yubikey cli & gui manager";
     PKGS_CHECK := CheckStr "ykman --help";
     PKGS_ISNTALL := {[ "tails" := CmdSeq [
       "# Adding yubico maintaners GPG keys";
       "gpg --quiet --keyserver hkps://keys.openpgp.org --receive-keys 9E885C0302F9BB9167529C2D5CBA11E6ADC7BCD1";
       "gpg --quiet --keyserver hkps://keys.openpgp.org --receive-keys 57a9deed4c6d962a923bb691816f3ed99921835e";
       "# Download ykman AppImage";
       "mkdir -p " +:+ TMP_DIR +:+ "/ykman";
       "torsocks wget -c -t 0 --retry-connrefused --quiet --show-progress -O " +:+ TMP_DIR
         +:+ "/ykman/yubikey-manager-qt.AppImage https://developers.yubico.com/yubikey-manager-qt/Releases/yubikey-manager-qt-latest-linux.AppImage";
       "torsocks wget -c -t 0 --retry-connrefused --quiet --show-progress -O " +:+ TMP_DIR
         +:+ "/ykman/yubikey-manager-qt.AppImage.sig https://developers.yubico.com/yubikey-manager-qt/Releases/yubikey-manager-qt-latest-linux.AppImage.sig";
       "# Verify downloaded image";
       "gpg --quiet --verify " +:+ TMP_DIR +:+ "/ykman/yubikey-manager-qt.AppImage.sig";
       "# Make image executable";
       "chmod +x " +:+ TMP_DIR +:+ "/ykman/yubikey-manager-qt.AppImage";
       "# Move image to /bin";
       "sudo mv " +:+ TMP_DIR +:+ "/ykman/yubikey-manager-qt.AppImage /bin/ykman"
     ] ]} |}
].

Definition PRE_INSTALL : gmap string Cmds :=
  {[ "tails" := CmdStr "sudo apt -q update -y " ]}.

Definition config (token : string) : Config :=
  Build_Config (TMP_DIR token) (PKGS (TMP_DIR token)) PRE_INSTALL.

End Source.

(** ** A small host to run the script on

    A toy shell that knows the commands of the shipped tables: a tool is
    installed when its file is in [/bin]; [shred] unlinks the regular file
    it is given when [/bin/shred] is there. *)

Module Toy.

Definition exited (code : Z) : Completed :=
  {| returncode := code; proc_stdout := EmptyString; proc_stderr := EmptyString |}.

Definition probe (f : gmap string node) (tool : string) (found : Z) : Completed :=
  if is_file f ("/bin/" +:+ tool) then exited found else exited 127.

Definition shell (cmd : string) (interactive : bool) (f : gmap string node)
  : Completed * gmap string node :=
  if Str.startswith "shred -f -u -z " cmd then
    let path := Str.drop 15 cmd in
    if is_file f "/bin/shred" && is_file f path then (exited 0, delete path f)
    else (exited 1, f)
  else if String.eqb cmd "gpg --version" then (probe f "gpg" 0, f)
  else if String.eqb cmd "argon2 -h" then (probe f "argon2" 1, f)
  else if String.eqb cmd "ykman --help" then (probe f "ykman" 0, f)
  else if String.eqb cmd "sudo apt -q update -y " then (exited 0, f)
  else if String.eqb cmd "sudo apt -qq install -y argon2" then
    (exited 0, <["/bin/argon2" := File 493]> f)
  else if String.eqb cmd "true" then (exited 0, f)
  else if String.eqb cmd "false" then (exited 1, f)
  else if Str.startswith "touch " cmd then
    (exited 0, <[Str.drop 6 cmd := File 420]> f)
  else (exited 127, f).

Definition host (system version login : string) : Host :=
  {| platform_system := system; platform_version := version;
     os_getlogin := login; umask := 18; Popen := shell |}.

(** An Arch Linux machine: the kernel version string has no hyphen. *)
Definition arch : Host :=
  host "Linux" "#1 SMP PREEMPT_DYNAMIC Tue, 05 Nov 2024 17:21:34 +0000" "user".

(** An Ubuntu machine. *)
Definition ubuntu : Host :=
  host "Linux" "#35~22.04.1-Ubuntu SMP PREEMPT_DYNAMIC Fri Oct 6 10:23:26" "user".

(** A Tails machine. *)
Definition tails : Host :=
  host "Linux" "#1 SMP PREEMPT_DYNAMIC Debian 6.1.76-1 (2024-02-01)" "amnesia".

Definition config : Config := Source.config "k3J9xQ2mPz4RbA".

Definition world (f : gmap string node) (keys : list key) : World :=
  {| PRE_INSTALL_RUNNED := false; os_info_cache := None;
     stdin := keys; log := []; fs := f |}.

Definition plain_fs : gmap string node :=
  {[ "/tmp" := Dir 1023; "/bin" := Dir 493; "/bin/shred" := File 493 ]}.

Definition tails_fs : gmap string node :=
  <["/etc" := Dir 493]> (<["/etc/tails" := Dir 493]> (<["/etc/amnesia" := Dir 493]>
  (<["/bin/gpg" := File 493]> plain_fs))).

(** Tails with every package of the registry in place. *)
Definition installed_fs : gmap string node :=
  <["/bin/argon2" := File 493]> (<["/bin/ykman" := File 493]> tails_fs).

(** A workspace with one file in it, on a machine without [shred]. *)
Definition no_shred_fs : gmap string node :=
  {[ "/tmp" := Dir 1023; "/tmp/ws" := Dir 448; "/tmp/ws/key.sig" := File 420 ]}.

Definition idle : World := world plain_fs [].
Definition consenting : World := world tails_fs [Line "Yes"].
Definition declining : World := world tails_fs [Line "No"].
Definition provisioned : World := world installed_fs [Line "Yes"].
Definition three_turns : list (World -> World) := [id; id; id].


(** A macOS machine: not a supported platform. *)
Definition mac : Host :=
  host "Darwin" "Darwin Kernel Version 23.1.0: Mon Oct 9 21:27:24 PDT 2023" "user".

(** A workspace left over from an earlier run of the same token. *)
Definition stale : World := world (<[TMP_DIR (Config := config) := Dir 448]> plain_fs) [].

Definition no_shred : World := world no_shred_fs [].
Definition with_shred : World := world (<["/bin/shred" := File 493]> no_shred_fs) [].

(** Tails with [gpg] only; the terminal holds the given keys. *)
Definition on_tails (keys : list key) : World := world tails_fs keys.

(** A registry with one package that has a recipe for the key [arch] and
    one that has none. *)
Definition argon2_pkg : Package :=
  {| PKGS_NAME := "argon2"; PKGS_COMMENT := "hash";
     PKGS_CHECK := CheckPair "argon2 -h" 1;
     PKGS_ISNTALL := {[ "arch" := CmdStr "sudo apt -qq install -y argon2" ]} |}.
Definition ykman_pkg : Package :=
  {| PKGS_NAME := "ykman"; PKGS_COMMENT := "manager";
     PKGS_CHECK := CheckStr "ykman --help";
     PKGS_ISNTALL := {[ "tails" := CmdStr "true" ]} |}.
Definition mixed : Config := Build_Config "/tmp/ws" [argon2_pkg; ykman_pkg] ∅.

Definition yes_on_plain : World := world plain_fs [Line "Yes"].
Definition blank_on_plain : World := world plain_fs [Line EmptyString].
Definition interrupted_on_tails : World := world tails_fs [CtrlC].

(** The marker directories of Tails appear on disk. *)
Definition markers_appear (w : World) : World := set_fs tails_fs w.

(** A machine on which every command succeeds. *)
Definition agreeable : Host :=
  {| platform_system := "Linux"; platform_version := "#1-NixOS SMP";
     os_getlogin := "user"; umask := 18;
     Popen := fun _ _ f => (exited 0, f) |}.

End Toy.

(** ** Vocabulary of the specification *)

Section Vocabulary.
Context `{Host} `{Config}.

Definition cmd_list (cmds : Cmds) : list string :=
  match cmds with
  | CmdNone => []
  | CmdStr cmd => [cmd]
  | CmdSeq cmds => cmds
  end.

(** The entries of a command set that are not comments. *)
Definition runnable (cmds : Cmds) : list string :=
  List.filter (fun cmd => negb (is_comment cmd)) (cmd_list cmds).

(** The commands spawned according to a log, oldest first. *)
Definition spawned (l : list event) : list string :=
  omap (fun ev => match ev with
                  | EvExec cmd _ _ => Some cmd
                  | _ => None
                  end) (reverse l).

Definition exec_event (interactive : bool) (run : string * Z) : event :=
  EvExec run.1 interactive run.2.

(** What [ask] adds to the log when it turns down [n] answers and then
    accepts one (newest first). *)
Definition ask_prompt (prompt : string) : string :=
  prompt +:+ " (" +:+ YES_OR_NO +:+ "): ".
Definition corrective : string :=
  TAB +:+ CL_YELLOW +:+ "Please type " +:+ YES_OR_NO.
Fixpoint ask_log (prompt : string) (n : nat) : list event :=
  match n with
  | O => [EvInput (ask_prompt prompt)]
  | S n' => ask_log prompt n' ++ [EvPrint corrective; EvInput (ask_prompt prompt)]
  end.

Definition add_log (l : list event) (w : World) : World :=
  {| PRE_INSTALL_RUNNED := PRE_INSTALL_RUNNED w; os_info_cache := os_info_cache w;
     stdin := stdin w; log := l ++ log w; fs := fs w |}.

(** An answer that is neither of the two canonical tokens. *)
Definition off_token (s : string) : Prop := s ≠ YES ∧ s ≠ NO.

Definition token (b : bool) : string := if b then YES else NO.

(** A computation is silent when, whatever its outcome, it spawns nothing
    and leaves the flag, the memo and the file system as they are. *)
Definition silent {A} (m : M A) : Prop :=
  ∀ w, ∃ l,
    log (m w).2 = l ++ log w
    ∧ spawned l = []
    ∧ PRE_INSTALL_RUNNED (m w).2 = PRE_INSTALL_RUNNED w
    ∧ os_info_cache (m w).2 = os_info_cache w
    ∧ fs (m w).2 = fs w.

(** A computation is tame when it never runs out of fuel and never puts
    keys back on the terminal. *)
Definition tame {A} (m : M A) : Prop :=
  ∀ w, (m w).1 ≠ Diverge ∧ (length (stdin (m w).2) ≤ length (stdin w))%nat.

(** It is reading (for the results in [P]) when returning such a result
    means that at least one key was taken from the terminal. *)
Definition reading {A} (P : A → Prop) (m : M A) : Prop :=
  ∀ w a w', m w = (Ret a, w') → P a → (length (stdin w') < length (stdin w))%nat.

Definition goes_round (turn : bool + bool) : Prop :=
  match turn with
  | inl _ => True
  | inr _ => False
  end.

(** Section 4.1: a Debian-family build, both marker directories, and the
    login of the hardened distribution. *)
Definition hardened (f : gmap string node) : bool :=
  Str.contains "Debian" platform_version
  && is_dir f "/etc/tails" && is_dir f "/etc/amnesia"
  && String.eqb os_getlogin "amnesia".

(** The text of a string before its first blank. *)
Fixpoint before_space (s : string) : string :=
  match s with
  | EmptyString => EmptyString
  | String c s' => if Ascii.eqb c " " then EmptyString else String c (before_space s')
  end.

(** The distribution key as section 4.1 words it: the token before the
    first space of the segment after the first hyphen; without a hyphen,
    the first white-space delimited token of the raw string; lower case
    in every case. *)
Definition spec_distribution_key (version : string) : string :=
  match Str.split "-" version with
  | _ :: segment :: _ => Str.lower (before_space segment)
  | _ => Str.lower (Str.first_token version)
  end.

(** Every availability probe, run in registry order from file system [f],
    exits with the code that means "installed". *)
Fixpoint probes_pass (pkgs : list Package) (f : gmap string node) : bool :=
  match pkgs with
  | [] => true
  | pkg :: rest =>
      let '(proc, f') := Popen (check_of pkg).1 false f in
      (returncode proc =? (check_of pkg).2) && probes_pass rest f'
  end.

Definition probe_event (pkg : Package) : event :=
  EvExec (check_of pkg).1 false (check_of pkg).2.

(** The worlds in which [run_pre_install] is called during successive
    provisioning iterations; [between] lists what the rest of the
    iteration does to the world before each call. *)
Fixpoint call_sites (distro : string) (between : list (World -> World)) (w : World)
  : list World :=
  match between with
  | [] => []
  | step :: rest =>
      step w :: call_sites distro rest (run_pre_install distro (step w)).2
  end.

(** Nothing but [run_pre_install] declares the flag [global]. *)
Definition keeps_flag (step : World -> World) : Prop :=
  forall w, PRE_INSTALL_RUNNED (step w) = PRE_INSTALL_RUNNED w.

Definition shred_cmd (path : string) : string := "shred -f -u -z " +:+ path.

(** No ancestor of [path] is a regular file. *)
Definition clear_way (f : gmap string node) (path : string) : bool :=
  negb (existsb (is_file f) (parents path)).

End Vocabulary.

(** ** The remaining function of the script: [get_ykman_cmd] *)

Section Ykman.
Context `{Host}.

(** [t == n] for the triple that [run_cmd] returns and an integer: in
    Python a tuple and an int are never equal. *)
Definition tuple_eq_int (t : Z * string * string) (n : Z) : bool := false.

Definition get_ykman_cmd_body : M string :=
  let* status := run_cmd (Some "ykman ykman") false in
  if tuple_eq_int status 0 then ret "ykman ykman"
  else ret "ykman".

(** [@lru_cache(maxsize=None)] again; the memo of this function is passed
    along explicitly. *)
Definition get_ykman_cmd (memo : option string) (w : World)
  : (outcome string * World) * option string :=
  match memo with
  | Some r => ((Ret r, w), memo)
  | None =>
      match get_ykman_cmd_body w with
      | (Ret r, w') => ((Ret r, w'), Some r)
      | other => (other, None)
      end
  end.

End Ykman.

(** ** More vocabulary *)

Section Coverage_vocabulary.
Context `{Host} `{Config}.

(** Nothing but [get_os_info] writes its memo. *)
Definition keeps_memo (step : World -> World) : Prop :=
  forall w, os_info_cache (step w) = os_info_cache w.

(** The install commands of the packages [deps] on [distro], flattened in
    the order of [deps]. *)
Definition batch (distro : string) (deps : list Package) : list string :=
  concat ((fun dep => cmd_list (default CmdNone (PKGS_ISNTALL dep !! distro))) <$> deps).

Definition probe_cmds (pkgs : list Package) : list string :=
  (fun pkg => (check_of pkg).1) <$> pkgs.

(** A computation that only prints: it returns, and the world changes by
    lines added to the log. *)
Definition chatty (m : M unit) : Prop :=
  ∀ w, ∃ l, m w = (Ret tt, add_log l w) ∧ spawned l = [].

Definition install_prompt : string := "Do you want to install them?".
Definition os_prompt : string := "Do your want to continue on current system".

End Coverage_vocabulary.

(** * Properties *)

Section Properties.
Context `{Host} `{Config}.

(** ** Install planner *)

Lemma chek_can_install_fold (deps : list Package) distro (a m : list Package) :
  foldl (fun acc dep =>
           let '(available, not_available) := acc in
           if has_recipe distro dep then (available ++ [dep], not_available)
           else (available, not_available ++ [dep]))
        (a, m) deps
  = (a ++ filter (fun dep => is_Some (PKGS_ISNTALL dep !! distro)) deps,
     m ++ filter (fun dep => ¬ is_Some (PKGS_ISNTALL dep !! distro)) deps).
Proof.
  revert a m. induction deps as [|dep deps IH]; intros a m; simpl.
  - by rewrite !app_nil_r.
  - unfold has_recipe at 2. rewrite !filter_cons.
    destruct (decide (is_Some (PKGS_ISNTALL dep !! distro))) as [Hin|Hout].
    + rewrite bool_decide_eq_true_2 by done. rewrite IH.
      rewrite decide_False by tauto. by rewrite <- app_assoc.
    + rewrite bool_decide_eq_false_2 by done. rewrite IH.
      rewrite decide_True by done. by rewrite <- app_assoc.
Qed.

(** C5. [chek_can_install] splits its candidates into those whose recipe
    map has the distribution as a key and those whose map has not; the
    two lists together are a rearrangement of the input, no descriptor is
    in both, and each keeps the order of the input. *)
Theorem chek_can_install_partition (deps : list Package) (distro : string) :
  ∃ auto manual,
    chek_can_install deps distro = (auto, manual)
    ∧ auto = filter (fun dep => is_Some (PKGS_ISNTALL dep !! distro)) deps
    ∧ manual = filter (fun dep => ¬ is_Some (PKGS_ISNTALL dep !! distro)) deps
    ∧ auto ++ manual ≡ₚ deps
    ∧ (∀ dep, dep ∈ auto → dep ∉ manual)
    ∧ auto `sublist_of` deps
    ∧ manual `sublist_of` deps.
Proof.
  unfold chek_can_install. rewrite chek_can_install_fold. simpl.
  eexists _, _. split; [reflexivity|].
  repeat split.
  - apply filter_app_complement.
  - intros dep [Hin _]%list_elem_of_filter [Hout _]%list_elem_of_filter. tauto.
  - apply sublist_filter.
  - apply sublist_filter.
Qed.

(** ** Command runner *)

Lemma run_cmd_some cmd interactive w :
  ∃ out err,
    run_cmd (Some cmd) interactive w
    = (Ret (returncode (Popen cmd interactive (fs w)).1, out, err),
       emit (EvExec cmd interactive (returncode (Popen cmd interactive (fs w)).1))
            (set_fs (Popen cmd interactive (fs w)).2 w)).
Proof.
  unfold run_cmd. destruct (Popen cmd interactive (fs w)) as [proc f'].
  destruct interactive; eauto.
Qed.

Lemma runnable_cons_comment cmd rest :
  is_comment cmd = true → runnable (CmdSeq (cmd :: rest)) = runnable (CmdSeq rest).
Proof. unfold runnable. simpl. by intros ->. Qed.

Lemma runnable_cons_command cmd rest :
  is_comment cmd = false →
  runnable (CmdSeq (cmd :: rest)) = cmd :: runnable (CmdSeq rest).
Proof. unfold runnable. simpl. by intros ->. Qed.

Lemma runnable_not_comment cmds cmd : cmd ∈ runnable cmds → is_comment cmd = false.
Proof.
  unfold runnable. rewrite list_elem_of_In, filter_In.
  intros [_ Hc]. by apply negb_true_iff.
Qed.

(** What one pass of the [for] loop of [run_cmds] does: [ran] lists the
    commands it spawned with their exit codes, in order. *)
Lemma run_cmds_for_trace cmds interactive w :
  ∃ (ran : list (string * Z)) code w',
    run_cmds_for cmds interactive w = (Ret code, w')
    ∧ log w' = reverse (exec_event interactive <$> ran) ++ log w
    ∧ stdin w' = stdin w
    ∧ PRE_INSTALL_RUNNED w' = PRE_INSTALL_RUNNED w
    ∧ os_info_cache w' = os_info_cache w
    ∧ ((ran.*1 = runnable (CmdSeq cmds) ∧ Forall (fun run => run.2 = 0) ran ∧ code = 0)
       ∨ (∃ ok cmd, ran = ok ++ [(cmd, code)]
                    ∧ Forall (fun run => run.2 = 0) ok
                    ∧ code ≠ 0
                    ∧ ran.*1 `prefix_of` runnable (CmdSeq cmds))).
Proof.
  revert w. induction cmds as [|cmd rest IH]; intros w.
  - exists [], 0, w. simpl. repeat split; auto.
  - simpl. destruct (is_comment cmd) eqn:Hc.
    + destruct (IH w) as (ran & code & w' & Hrun & Hlog & Hin & Hflag & Hmemo & Hcases).
      exists ran, code, w'. rewrite runnable_cons_comment by done. auto 10.
    + destruct (run_cmd_some cmd interactive w) as (out & err & Hcmd).
      unfold bind. rewrite Hcmd.
      set (code1 := returncode (Popen cmd interactive (fs w)).1).
      set (w1 := emit (EvExec cmd interactive code1) _).
      rewrite runnable_cons_command by done.
      destruct (code1 =? 0) eqn:Hcode; simpl.
      * apply Z.eqb_eq in Hcode.
        destruct (IH w1) as (ran & code & w' & Hrun & Hlog & Hin & Hflag & Hmemo & Hcases).
        exists ((cmd, code1) :: ran), code, w'.
        split; [done|]. split.
        { rewrite Hlog, fmap_cons, reverse_cons, <- app_assoc. done. }
        do 3 (split; [done|]).
        destruct Hcases as [(Hall & Hok & ->)|(ok & last & -> & Hok & Hne & Hpre)].
        -- left. rewrite fmap_cons, Hall. auto.
        -- right. exists ((cmd, code1) :: ok), last.
           rewrite fmap_cons. repeat split; auto. by apply prefix_cons.
      * apply Z.eqb_neq in Hcode.
        exists [(cmd, code1)], code1, w1. do 5 (split; [done|]).
        right. exists [], cmd. simpl. repeat split; auto.
        apply prefix_cons, prefix_nil.
Qed.

Lemma run_cmds_trace cmds interactive w :
  ∃ (ran : list (string * Z)) code w',
    run_cmds cmds interactive w = (Ret code, w')
    ∧ log w' = reverse (exec_event interactive <$> ran) ++ log w
    ∧ stdin w' = stdin w
    ∧ PRE_INSTALL_RUNNED w' = PRE_INSTALL_RUNNED w
    ∧ os_info_cache w' = os_info_cache w
    ∧ ((ran.*1 = runnable cmds ∧ Forall (fun run => run.2 = 0) ran ∧ code = 0)
       ∨ (∃ ok cmd, ran = ok ++ [(cmd, code)]
                    ∧ Forall (fun run => run.2 = 0) ok
                    ∧ code ≠ 0
                    ∧ ran.*1 `prefix_of` runnable cmds)).
Proof.
  destruct cmds as [|cmd|cmds]; simpl.
  - exists [], 0, w. repeat split; auto.
  - apply (run_cmds_for_trace [cmd]).
  - apply run_cmds_for_trace.
Qed.

(** C4. [run_cmds] always returns a code.  Either it spawned every entry
    that is not a comment, each exited with 0, and it returns 0 (so for
    [None] and for an empty sequence); or the command it spawned last
    exited with a non-zero code, every command before it exited with 0,
    and that code is returned.  The log grows by exactly the commands
    spawned, so nothing runs after the first failure. *)
Theorem run_cmds_first_failure (cmds : Cmds) (interactive : bool) (w : World) :
  ∃ (ran : list (string * Z)) (code : Z) (w' : World),
    run_cmds cmds interactive w = (Ret code, w')
    ∧ log w' = reverse (exec_event interactive <$> ran) ++ log w
    ∧ ((ran.*1 = runnable cmds ∧ Forall (fun run => run.2 = 0) ran ∧ code = 0)
       ∨ (∃ ok cmd, ran = ok ++ [(cmd, code)]
                    ∧ Forall (fun run => run.2 = 0) ok
                    ∧ code ≠ 0
                    ∧ ran.*1 `prefix_of` runnable cmds)).
Proof.
  destruct (run_cmds_trace cmds interactive w)
    as (ran & code & w' & Hrun & Hlog & _ & _ & _ & Hcases).
  exists ran, code, w'. auto.
Qed.

Lemma run_cmds_for_runnable cmds interactive w :
  run_cmds_for cmds interactive w
  = run_cmds_for (runnable (CmdSeq cmds)) interactive w.
Proof.
  revert w. induction cmds as [|cmd rest IH]; intros w; [done|].
  simpl. destruct (is_comment cmd) eqn:Hc.
  - rewrite runnable_cons_comment by done. apply IH.
  - rewrite runnable_cons_command by done. simpl. rewrite Hc.
    unfold bind. destruct (run_cmd (Some cmd) interactive w) as [[[[code out] err]|e|] w1];
      [|done..].
    destruct (negb (code =? 0)); [done|]. apply IH.
Qed.

(** C8. An entry whose stripped text starts with [#] is skipped by
    [run_cmds]: the call behaves, in its result and in everything it
    does to the world, as the call on the entries that are not comments;
    and no spawn that the call adds to the log is one of a comment. *)
Theorem run_cmds_skips_comments (cmds : Cmds) (interactive : bool) (w : World) :
  run_cmds cmds interactive w = run_cmds (CmdSeq (runnable cmds)) interactive w
  ∧ ∀ cmd i code,
      EvExec cmd i code ∈ log (run_cmds cmds interactive w).2 →
      EvExec cmd i code ∈ log w ∨ is_comment cmd = false.
Proof.
  split.
  - destruct cmds as [|cmd|cmds]; simpl.
    + done.
    + apply (run_cmds_for_runnable [cmd]).
    + apply run_cmds_for_runnable.
  - intros cmd i code.
    destruct (run_cmds_trace cmds interactive w)
      as (ran & rc & w' & Hrun & Hlog & _ & _ & _ & Hcases).
    rewrite Hrun. simpl. rewrite Hlog, elem_of_app, elem_of_reverse.
    intros [Hnew|Hold]; [right|by left].
    apply list_elem_of_fmap in Hnew as ([c z] & [= -> -> ->] & Hin).
    assert (c ∈ ran.*1) as Hc by (apply list_elem_of_fmap; by exists (c, z)).
    apply (runnable_not_comment cmds).
    destruct Hcases as [(<- & _)|(ok & last & _ & _ & _ & Hpre)]; [done|].
    destruct Hpre as [tail ->]. apply elem_of_app. by left.
Qed.

(** ** Confirmation gate *)

Lemma world_eq (w1 w2 : World) :
  PRE_INSTALL_RUNNED w1 = PRE_INSTALL_RUNNED w2 →
  os_info_cache w1 = os_info_cache w2 →
  stdin w1 = stdin w2 →
  log w1 = log w2 →
  fs w1 = fs w2 →
  w1 = w2.
Proof. destruct w1, w2; simpl; congruence. Qed.

Lemma ask_loop_returns fuel prompt w b w' :
  ask_loop fuel prompt w = (Ret b, w') →
  ∃ junk rest,
    stdin w = (Line <$> junk) ++ Line (token b) :: rest
    ∧ Forall off_token junk
    ∧ w' = set_stdin rest (add_log (ask_log prompt (length junk)) w).
Proof.
  revert w. induction fuel as [|fuel IH]; intros w; [done|].
  simpl. unfold bind, input. fold (ask_prompt prompt).
  destruct w as [flag memo keys lg f]; simpl.
  destruct keys as [|[s|] ks]; simpl; [done| |done].
  destruct (String.eqb s YES) eqn:Hyes.
  { apply String.eqb_eq in Hyes as ->. intros [= <- <-].
    exists [], ks. by repeat split. }
  destruct (String.eqb s NO) eqn:Hno.
  { apply String.eqb_eq in Hno as ->. intros [= <- <-].
    exists [], ks. by repeat split. }
  apply String.eqb_neq in Hyes, Hno.
  fold corrective. unfold print; simpl. intros Hrec.
  apply IH in Hrec as (junk & rest & Hkeys & Hjunk & ->). simpl in Hkeys.
  exists (s :: junk), rest. split; [by rewrite Hkeys|]. split.
  - constructor; [by split|done].
  - apply world_eq; simpl; try done. by rewrite <- app_assoc.
Qed.

Lemma ask_loop_accepts junk : ∀ fuel prompt w b rest,
  (length junk < fuel)%nat →
  stdin w = (Line <$> junk) ++ Line (token b) :: rest →
  Forall off_token junk →
  ask_loop fuel prompt w
  = (Ret b, set_stdin rest (add_log (ask_log prompt (length junk)) w)).
Proof.
  induction junk as [|s junk IH]; intros fuel prompt w b rest Hfuel Hkeys Hjunk.
  - destruct fuel as [|fuel]; [lia|].
    simpl. unfold bind, input. fold (ask_prompt prompt).
    destruct w as [flag memo keys lg f]; simpl in *. subst keys.
    destruct b; simpl; done.
  - destruct fuel as [|fuel]; [simpl in Hfuel; lia|].
    apply Forall_cons in Hjunk as [[Hyes Hno] Hjunk].
    simpl. unfold bind, input. fold (ask_prompt prompt).
    destruct w as [flag memo keys lg f]; simpl in *. subst keys. simpl.
    apply String.eqb_neq in Hyes, Hno. rewrite Hyes, Hno.
    fold corrective. unfold print; simpl.
    erewrite IH; [|lia|done|done].
    f_equal. apply world_eq; simpl; try done. by rewrite <- app_assoc.
Qed.

Lemma ask_returns prompt w b w' :
  ask prompt w = (Ret b, w') ↔
  ∃ junk rest,
    stdin w = (Line <$> junk) ++ Line (token b) :: rest
    ∧ Forall off_token junk
    ∧ w' = set_stdin rest (add_log (ask_log prompt (length junk)) w).
Proof.
  unfold ask. split.
  - apply ask_loop_returns.
  - intros (junk & rest & Hkeys & Hjunk & ->).
    apply ask_loop_accepts; [|done..].
    rewrite Hkeys, length_app, length_fmap. simpl. lia.
Qed.

(** C6. [ask] returns [b] exactly when the terminal delivers some answers
    that are neither [Yes] nor [No], followed by the exact token of [b]
    ([Yes] for true, [No] for false).  Each answer turned down costs one
    corrective line and one more prompt in the log and nothing else: the
    flag, the memo and the file system are as before, and the keys after
    the accepted one are still unread. *)
Theorem ask_strict (prompt : string) (w : World) (b : bool) (w' : World) :
  ask prompt w = (Ret b, w') ↔
  ∃ (junk : list string) (rest : list key),
    stdin w = (Line <$> junk) ++ Line (if b then YES else NO) :: rest
    ∧ Forall (fun s => s ≠ YES ∧ s ≠ NO) junk
    ∧ PRE_INSTALL_RUNNED w' = PRE_INSTALL_RUNNED w
    ∧ os_info_cache w' = os_info_cache w
    ∧ fs w' = fs w
    ∧ stdin w' = rest
    ∧ log w' = ask_log prompt (length junk) ++ log w.
Proof.
  rewrite ask_returns. split.
  - intros (junk & rest & Hkeys & Hjunk & ->). exists junk, rest. by repeat split.
  - intros (junk & rest & Hkeys & Hjunk & Hflag & Hmemo & Hfs & Hin & Hlog).
    exists junk, rest. repeat split; [done..|]. by apply world_eq.
Qed.

(** The answers the specification names are turned down: after [y],
    [yes] and the empty line the gate is still waiting, and only the
    exact [Yes] ends it. *)
Example ask_rejects_lookalikes prompt w0 :
  stdin w0 = [Line "y"; Line "yes"; Line EmptyString; Line "Yes"; Line "No"] →
  ask prompt w0
  = (Ret true, set_stdin [Line "No"] (add_log (ask_log prompt 3) w0)).
Proof.
  intros Hkeys. apply ask_returns.
  exists ["y"; "yes"; EmptyString], [Line "No"]. split; [done|]. split; [|done].
  repeat constructor; done.
Qed.

(** [ask] never runs out of fuel: it returns or raises. *)
Lemma ask_loop_total prompt : ∀ fuel w,
  (length (stdin w) < fuel)%nat → (ask_loop fuel prompt w).1 ≠ Diverge.
Proof.
  induction fuel as [|fuel IH]; intros w Hfuel; [lia|].
  simpl. unfold bind, input.
  destruct w as [flag memo keys lg f]; simpl in *.
  destruct keys as [|[s|] ks]; simpl; [done| |done].
  destruct (String.eqb s YES); [done|]. destruct (String.eqb s NO); [done|].
  unfold print; simpl. apply IH. simpl in *. lia.
Qed.

Lemma ask_total prompt w : (ask prompt w).1 ≠ Diverge.
Proof. unfold ask. apply ask_loop_total. lia. Qed.

(** ** What the gate and the runner leave alone *)

Lemma spawned_app l1 l2 : spawned (l1 ++ l2) = spawned l2 ++ spawned l1.
Proof. unfold spawned. by rewrite reverse_app, omap_app. Qed.

Lemma spawned_exec interactive (ran : list (string * Z)) :
  spawned (reverse (exec_event interactive <$> ran)) = ran.*1.
Proof.
  unfold spawned. rewrite reverse_involutive.
  induction ran as [|[cmd code] ran IH]; [done|].
  simpl. f_equal. exact IH.
Qed.

Lemma silent_ret {A} (a : A) : silent (ret a).
Proof. intros w. by exists []. Qed.

Lemma silent_print text : silent (print text).
Proof. intros w. by exists [EvPrint text]. Qed.

Lemma silent_input prompt : silent (input prompt).
Proof.
  intros w. exists [EvInput prompt]. unfold input.
  destruct w as [flag memo keys lg f]; simpl.
  by destruct keys as [|[s|] ks].
Qed.

Lemma silent_bind {A B} (m : M A) (k : A → M B) :
  silent m → (∀ a, silent (k a)) → silent (bind m k).
Proof.
  intros Hm Hk w. unfold bind.
  destruct (Hm w) as (l1 & Hlog1 & Hq1 & Hflag1 & Hmemo1 & Hfs1).
  destruct (m w) as [[a|e|] w1]; simpl in *; [|by exists l1..].
  destruct (Hk a w1) as (l2 & Hlog2 & Hq2 & Hflag2 & Hmemo2 & Hfs2).
  exists (l2 ++ l1). rewrite Hlog2, Hlog1, spawned_app, Hq1, Hq2.
  repeat split; [by rewrite app_assoc|congruence..].
Qed.

Lemma silent_ask_loop prompt fuel : silent (ask_loop fuel prompt).
Proof.
  induction fuel as [|fuel IH]; simpl.
  - intros w. by exists [].
  - apply silent_bind; [apply silent_input|]. intros inp.
    destruct (String.eqb inp YES); [apply silent_ret|].
    destruct (String.eqb inp NO); [apply silent_ret|].
    apply silent_bind; [apply silent_print|done].
Qed.

Lemma silent_ask prompt : silent (ask prompt).
Proof. intros w. apply silent_ask_loop. Qed.

Lemma silent_ask_execute cmds : silent (ask_execute cmds).
Proof.
  unfold ask_execute.
  destruct cmds; [apply silent_ret|apply silent_ask..].
Qed.

(** ** Pre-install step *)

Lemma set_flag_idle w :
  PRE_INSTALL_RUNNED w = true → set_PRE_INSTALL_RUNNED true w = w.
Proof. intros Hflag. by apply world_eq. Qed.

Lemma run_pre_install_again distro w :
  PRE_INSTALL_RUNNED w = true → run_pre_install distro w = (Ret true, w).
Proof. unfold run_pre_install. by intros ->. Qed.

Lemma run_pre_install_nothing_registered distro w :
  PRE_INSTALL !! distro = None →
  run_pre_install distro w = (Ret true, set_PRE_INSTALL_RUNNED true w).
Proof.
  intros Hnone. unfold run_pre_install. rewrite Hnone.
  destruct (PRE_INSTALL_RUNNED w) eqn:Hflag; [|done].
  by rewrite set_flag_idle.
Qed.

(** What a call does, whatever its outcome: the flag is set afterwards,
    and what it spawned is an initial part of the registered commands
    that are not comments. *)
Lemma run_pre_install_effect distro w :
  PRE_INSTALL_RUNNED (run_pre_install distro w).2 = true
  ∧ ∃ ran,
      spawned (log (run_pre_install distro w).2) = spawned (log w) ++ ran
      ∧ ran `prefix_of` runnable (default CmdNone (PRE_INSTALL !! distro)).
Proof.
  unfold run_pre_install.
  destruct (PRE_INSTALL_RUNNED w) eqn:Hflag; simpl.
  { split; [done|]. exists []. split; [by rewrite app_nil_r|apply prefix_nil]. }
  set (w0 := set_PRE_INSTALL_RUNNED true w).
  destruct (PRE_INSTALL !! distro) as [cmds|]; simpl.
  2:{ split; [done|]. exists []. split; [by rewrite app_nil_r|apply prefix_nil]. }
  unfold bind.
  destruct (silent_ask_execute cmds w0) as (l & Hlog & Hq & Hflag1 & _ & _).
  destruct (ask_execute cmds w0) as [[ok|e|] w1]; simpl in *.
  2,3: split; [done|]; exists []; rewrite Hlog, spawned_app, Hq;
       split; [by rewrite !app_nil_r|apply prefix_nil].
  destruct ok; simpl.
  2:{ split; [done|]. exists []. rewrite Hlog, spawned_app, Hq.
      split; [by rewrite !app_nil_r|apply prefix_nil]. }
  destruct (run_cmds_trace cmds true w1)
    as (ran & code & w2 & Hrun & Hlog2 & _ & Hflag2 & _ & Hcases).
  rewrite Hrun. simpl. split; [congruence|].
  exists ran.*1. rewrite Hlog2, Hlog, !spawned_app, Hq, spawned_exec, app_nil_r.
  split; [done|].
  destruct Hcases as [(-> & _)|(ok & last & _ & _ & _ & Hpre)]; done.
Qed.

Lemma call_sites_after_first distro between : ∀ w,
  Forall keeps_flag between →
  PRE_INSTALL_RUNNED w = true →
  Forall (fun site => run_pre_install distro site = (Ret true, site))
         (call_sites distro between w).
Proof.
  induction between as [|step rest IH]; intros w Hkeep Hflag; simpl; [done|].
  apply Forall_cons in Hkeep as [Hstep Hrest].
  assert (run_pre_install distro (step w) = (Ret true, step w)) as Hidle.
  { apply run_pre_install_again. by rewrite Hstep. }
  constructor; [done|]. rewrite Hidle. simpl. apply IH; [done|].
  by rewrite Hstep.
Qed.

(** C3. Take [N >= 2] provisioning iterations of one process that each
    reach the pre-install step, with anything that leaves the flag alone
    in between.  The first call of [run_pre_install] spawns at most an
    initial part of the registered commands, each once; every later call
    returns true and leaves the world untouched.  For a distribution
    without registered commands a call returns true and changes nothing
    but the flag: no prompt, no spawn. *)
Theorem run_pre_install_once (distro : string) (between : list (World → World))
        (w : World) :
  (2 ≤ length between)%nat →
  Forall keeps_flag between →
  ∃ first later,
    call_sites distro between w = first :: later
    ∧ (∃ ran,
         spawned (log (run_pre_install distro first).2) = spawned (log first) ++ ran
         ∧ ran `prefix_of` runnable (default CmdNone (PRE_INSTALL !! distro)))
    ∧ later ≠ []
    ∧ Forall (fun site => run_pre_install distro site = (Ret true, site)) later
    ∧ (PRE_INSTALL !! distro = None →
       ∀ w0, run_pre_install distro w0 = (Ret true, set_PRE_INSTALL_RUNNED true w0)).
Proof.
  intros Hlen Hkeep.
  destruct between as [|step [|step2 rest]]; simpl in Hlen; [lia..|].
  apply Forall_cons in Hkeep as [Hstep Hrest].
  destruct (run_pre_install_effect distro (step w)) as [Hflag Hspawn].
  eexists _, _. split; [reflexivity|].
  split; [done|]. split; [done|]. split.
  - apply (call_sites_after_first distro (step2 :: rest)); done.
  - intros Hnone w0. by apply run_pre_install_nothing_registered.
Qed.

(** C9. Whatever the first call of [run_pre_install] comes to (it ran the
    commands, the user declined, a command failed, or Ctrl+c cut the
    prompt short), the flag is set when it is over; and from then on, after
    any steps that leave the flag alone, a call for any distribution
    returns true at once and changes nothing. *)
Theorem run_pre_install_flag_first (distro : string) (w : World)
        (r : outcome bool) (w1 : World) :
  run_pre_install distro w = (r, w1) →
  PRE_INSTALL_RUNNED w1 = true
  ∧ ∀ (step : World → World) (distro' : string),
      keeps_flag step →
      run_pre_install distro' (step w1) = (Ret true, step w1).
Proof.
  intros Hrun.
  assert (PRE_INSTALL_RUNNED w1 = true) as Hflag.
  { pose proof (run_pre_install_effect distro w) as [Hset _].
    by rewrite Hrun in Hset. }
  split; [done|]. intros step distro' Hstep.
  apply run_pre_install_again. by rewrite Hstep.
Qed.

(** ** Environment detector *)

Lemma looks_like_tails_reads w :
  looks_like_tails w
  = (Ret (is_dir (fs w) "/etc/tails" && is_dir (fs w) "/etc/amnesia"
          && String.eqb os_getlogin "amnesia"), w).
Proof.
  unfold looks_like_tails, bind, os_path_isdir.
  destruct (is_dir (fs w) "/etc/tails"); simpl; [|reflexivity].
  destruct (is_dir (fs w) "/etc/amnesia"); reflexivity.
Qed.

(** Detection only reads: it returns a pair and leaves the world alone. *)
Lemma get_os_info_body_reads w : ∃ r, get_os_info_body w = (Ret r, w).
Proof.
  unfold get_os_info_body.
  destruct (String.eqb (Str.lower platform_system) "linux"); [|by eexists].
  unfold bind.
  destruct (Str.contains "Debian" platform_version).
  - rewrite looks_like_tails_reads. simpl.
    repeat (match goal with |- context [if ?c then _ else _] => destruct c end);
      by eexists.
  - simpl.
    repeat (match goal with |- context [if ?c then _ else _] => destruct c end);
      by eexists.
Qed.

Lemma get_os_info_returns w :
  ∃ r memo, get_os_info w = (Ret r, set_os_info_cache memo w).
Proof.
  unfold get_os_info, lru_cache.
  destruct (os_info_cache w) as [r|] eqn:Hmemo.
  - exists r, (Some r). f_equal. by apply world_eq.
  - destruct (get_os_info_body_reads w) as [r ->]. by exists r, (Some r).
Qed.

Lemma split_not_nil sep s : Str.split sep s ≠ [].
Proof.
  destruct s as [|c s]; simpl; [done|].
  destruct (Ascii.eqb c sep); [done|]. by destruct (Str.split sep s).
Qed.

(** A string without the separator is the only piece of its split. *)
Lemma split_single sep s :
  (length (Str.split sep s) < 2)%nat → nth 0 (Str.split sep s) EmptyString = s.
Proof.
  induction s as [|c s IH]; simpl; [done|].
  destruct (Ascii.eqb c sep).
  - pose proof (split_not_nil sep s). destruct (Str.split sep s); simpl; [done|lia].
  - pose proof (split_not_nil sep s) as Hne.
    destruct (Str.split sep s) as [|piece pieces]; [done|].
    simpl in *. intros Hlen. by rewrite IH.
Qed.

Lemma split_space_first s :
  nth 0 (Str.split " " s) EmptyString = before_space s.
Proof.
  induction s as [|c s IH]; simpl; [done|].
  destruct (Ascii.eqb c " "); [done|].
  destruct (Str.split " " s) as [|piece pieces]; simpl in *; by rewrite <- IH.
Qed.

Lemma get_os_info_body_linux w :
  Str.lower platform_system = "linux" →
  hardened (fs w) = false →
  get_os_info_body w
  = (Ret ("linux",
          match Str.split "-" platform_version with
          | _ :: segment :: _ => Str.lower (before_space segment)
          | _ => platform_version
          end), w).
Proof.
  intros Hlinux Hplain. unfold get_os_info_body. rewrite Hlinux. simpl.
  unfold bind.
  assert ((if Str.contains "Debian" platform_version
           then looks_like_tails else ret false) w = (Ret false, w)) as ->.
  { unfold hardened in Hplain.
    destruct (Str.contains "Debian" platform_version); [|done].
    rewrite looks_like_tails_reads. simpl in Hplain.
    by rewrite Hplain. }
  simpl.
  pose proof (split_single "-" platform_version) as Hsingle.
  pose proof (split_not_nil "-" platform_version) as Hne.
  destruct (Str.split "-" platform_version) as [|first [|segment more]]; simpl in *.
  - done.
  - unfold ret. by rewrite Hsingle by lia.
  - unfold ret. by rewrite split_space_first.
Qed.

(** C2, as the code has it.  On a Linux host that is not classified as
    the hardened distribution, the first call of [get_os_info] returns
    the platform [linux] and a distribution key.  When the version string
    has a hyphen, the key is the text of the segment after the first
    hyphen up to its first space, in lower case.  When it has none, the
    key is the whole version string, up to letter case, and not only
    its first token. *)
Theorem get_os_info_linux_key (w : World) :
  os_info_cache w = None →
  Str.lower platform_system = "linux" →
  hardened (fs w) = false →
  ∃ key,
    (get_os_info w).1 = Ret ("linux", key)
    ∧ match Str.split "-" platform_version with
      | _ :: segment :: _ => key = Str.lower (before_space segment)
      | _ => Str.lower key = Str.lower platform_version
      end.
Proof.
  intros Hfresh Hlinux Hplain.
  unfold get_os_info, lru_cache.
  rewrite Hfresh, (get_os_info_body_linux w Hlinux Hplain). simpl.
  eexists. split; [reflexivity|].
  by destruct (Str.split "-" platform_version) as [|first [|segment more]].
Qed.

(** ** Provisioning loop *)

Lemma probe_for_satisfied pkgs : ∀ to_install w,
  probes_pass pkgs (fs w) = true →
  ∃ w',
    probe_for pkgs to_install w = (Ret to_install, w')
    ∧ stdin w' = stdin w
    ∧ PRE_INSTALL_RUNNED w' = PRE_INSTALL_RUNNED w
    ∧ os_info_cache w' = os_info_cache w
    ∧ log w' = reverse (probe_event <$> pkgs) ++ log w.
Proof.
  induction pkgs as [|pkg rest IH]; intros to_install w Hpass.
  - by exists w.
  - simpl in *. unfold probe_event at 1.
    destruct (check_of pkg) as [check_cmd req_code]; simpl in *.
    destruct (run_cmd_some check_cmd false w) as (out & err & Hcmd).
    unfold bind. rewrite Hcmd.
    destruct (Popen check_cmd false (fs w)) as [proc f']; simpl in *.
    apply andb_true_iff in Hpass as [Hcode Hrest].
    rewrite Hcode. simpl. apply Z.eqb_eq in Hcode as ->.
    set (w1 := emit _ _).
    destruct (IH to_install w1 Hrest) as (w' & Hrun & Hin & Hflag & Hmemo & Hlog).
    exists w'. repeat split; [done..|].
    rewrite Hlog, reverse_cons, <- app_assoc. done.
Qed.

(** C7. When every availability probe exits with its expected code,
    [check_deps] returns true in its first turn (one unit of fuel is
    enough), reads nothing from the terminal, and adds to the log the
    probes and nothing else: no prompt, no printed line. *)
Theorem check_deps_all_satisfied (fuel : nat) (w : World) :
  (0 < fuel)%nat →
  probes_pass PKGS (fs w) = true →
  ∃ w',
    check_deps fuel w = (Ret true, w')
    ∧ stdin w' = stdin w
    ∧ PRE_INSTALL_RUNNED w' = PRE_INSTALL_RUNNED w
    ∧ log w' = reverse (probe_event <$> PKGS) ++ log w.
Proof.
  intros Hfuel Hpass. destruct fuel as [|fuel]; [lia|].
  unfold check_deps, bind at 1.
  destruct (get_os_info_returns w) as ([os distro] & memo & ->).
  simpl. unfold check_deps_turn, bind.
  destruct (probe_for_satisfied PKGS [] (set_os_info_cache memo w) Hpass)
    as (w' & -> & Hin & Hflag & _ & Hlog).
  exists w'. by repeat split.
Qed.

(** ** The loop always comes to an end

    Every turn of [check_deps] that goes round again has read from the
    terminal, so with more fuel than there are keys the loop never runs
    dry: it returns or raises. *)

Lemma tame_ret {A} (a : A) : tame (ret a).
Proof. intros w. simpl. split; [done|lia]. Qed.

Lemma tame_raise {A} e : tame (@raise A e).
Proof. intros w. simpl. split; [done|lia]. Qed.

Lemma tame_print text : tame (print text).
Proof. intros w. simpl. split; [done|lia]. Qed.

Lemma tame_input prompt : tame (input prompt).
Proof.
  intros w. unfold input. destruct w as [flag memo keys lg f]; simpl.
  destruct keys as [|[s|] ks]; simpl; split; (done || lia).
Qed.

Lemma tame_bind {A B} (m : M A) (k : A → M B) :
  tame m → (∀ a, tame (k a)) → tame (bind m k).
Proof.
  intros Hm Hk w. unfold bind. destruct (Hm w) as [Hlive Hkeys].
  destruct (m w) as [[a|e|] w1]; simpl in *; [|split; [done|lia]|done].
  destruct (Hk a w1). split; [done|lia].
Qed.

Lemma tame_for_each {A} (l : list A) (body : A → M unit) :
  (∀ x, tame (body x)) → tame (for_each l body).
Proof.
  intros Hbody. induction l as [|x l IH]; simpl; [apply tame_ret|].
  apply tame_bind; [apply Hbody|done].
Qed.

Lemma tame_run_cmd cmd interactive : tame (run_cmd cmd interactive).
Proof.
  destruct cmd as [cmd|]; [|apply tame_ret]. intros w.
  destruct (run_cmd_some cmd interactive w) as (out & err & ->). simpl.
  split; [done|lia].
Qed.

Lemma tame_run_cmds cmds interactive : tame (run_cmds cmds interactive).
Proof.
  intros w.
  destruct (run_cmds_trace cmds interactive w)
    as (ran & code & w' & -> & _ & Hkeys & _). simpl.
  rewrite Hkeys. split; [done|lia].
Qed.

Lemma tame_ask_loop prompt : ∀ fuel w,
  (length (stdin w) < fuel)%nat →
  (ask_loop fuel prompt w).1 ≠ Diverge
  ∧ (length (stdin (ask_loop fuel prompt w).2) ≤ length (stdin w))%nat.
Proof.
  induction fuel as [|fuel IH]; intros w Hfuel; [lia|].
  simpl. unfold bind, input.
  destruct w as [flag memo keys lg f]; simpl in *.
  destruct keys as [|[s|] ks]; simpl in *; [split; (done || lia)| |split; (done || lia)].
  destruct (String.eqb s YES); [simpl; split; (done || lia)|].
  destruct (String.eqb s NO); [simpl; split; (done || lia)|].
  unfold print; simpl.
  match goal with |- context [ask_loop fuel prompt ?w1] =>
    destruct (IH w1) as [Hlive Hkeys]; [simpl; lia|] end.
  simpl in *. split; [done|lia].
Qed.

Lemma tame_ask prompt : tame (ask prompt).
Proof. intros w. unfold ask. apply tame_ask_loop. lia. Qed.

Lemma tame_ask_execute cmds : tame (ask_execute cmds).
Proof. destruct cmds; [apply tame_ret|apply tame_ask..]. Qed.

Lemma tame_ask_continue : tame ask_continue.
Proof. apply tame_bind; [apply tame_input|intros; apply tame_ret]. Qed.

Lemma tame_run_pre_install distro : tame (run_pre_install distro).
Proof.
  intros w. unfold run_pre_install.
  destruct (PRE_INSTALL_RUNNED w); [simpl; split; [done|lia]|].
  change (stdin w) with (stdin (set_PRE_INSTALL_RUNNED true w)).
  generalize (set_PRE_INSTALL_RUNNED true w). revert w. intros _.
  change (tame (match PRE_INSTALL !! distro with
                | None => ret true
                | Some cmds =>
                    let* ok := ask_execute cmds in
                    if negb ok then ret false
                    else let* code := run_cmds cmds true in ret (code =? 0)
                end)).
  destruct (PRE_INSTALL !! distro) as [cmds|]; [|apply tame_ret].
  apply tame_bind; [apply tame_ask_execute|]. intros [|]; simpl; [|apply tame_ret].
  apply tame_bind; [apply tame_run_cmds|intros; apply tame_ret].
Qed.

Lemma tame_install_deps_for distro deps : ∀ commands,
  tame (install_deps_for distro deps commands).
Proof.
  induction deps as [|dep rest IH]; intros commands; simpl; [apply tame_ret|].
  destruct (PKGS_ISNTALL dep !! distro) as [[|cmd|cmd]|];
    auto using @tame_raise.
Qed.

Lemma tame_install_deps distro deps : tame (install_deps distro deps).
Proof.
  unfold install_deps.
  apply tame_bind; [apply tame_install_deps_for|]. intros commands.
  apply tame_bind; [apply tame_ask_execute|]. intros [|]; simpl; [|apply tame_ret].
  apply tame_bind; [apply (tame_run_cmds (CmdSeq commands))|intros; apply tame_ret].
Qed.

Lemma tame_probe_for pkgs : ∀ to_install, tame (probe_for pkgs to_install).
Proof.
  induction pkgs as [|pkg rest IH]; intros to_install; simpl; [apply tame_ret|].
  destruct (check_of pkg) as [check_cmd req_code].
  apply tame_bind; [apply tame_run_cmd|]. intros [[code out] err].
  destruct (negb (code =? req_code)); apply IH.
Qed.

Create HintDb tame.
#[local] Hint Resolve tame_ret tame_raise tame_print tame_input tame_for_each
  tame_run_cmd tame_run_cmds tame_ask tame_ask_execute tame_ask_continue
  tame_run_pre_install tame_install_deps_for tame_install_deps tame_probe_for : tame.

Ltac tame_step :=
  first
    [ solve [auto with tame]
    | match goal with
      | |- tame (if ?c then _ else _) => destruct c
      | |- tame (let '(_, _) := ?p in _) => destruct p
      end
    | apply tame_bind; [|intros ?] ].

Lemma reading_input prompt : reading (fun _ => True) (input prompt).
Proof.
  intros w a w' Hrun _. unfold input in Hrun.
  destruct w as [flag memo keys lg f]; simpl in *.
  destruct keys as [|[s|] ks]; simplify_eq/=. lia.
Qed.

Lemma reading_ask prompt : reading (fun _ => True) (ask prompt).
Proof.
  intros w b w' Hrun _.
  apply ask_returns in Hrun as (junk & rest & Hkeys & _ & ->).
  rewrite Hkeys, length_app. simpl. lia.
Qed.

(** Reading happens in the first part of a sequence ... *)
Lemma reading_bind_l {A B} (P : B → Prop) (m : M A) (k : A → M B) :
  reading (fun _ => True) m → (∀ a, tame (k a)) → reading P (bind m k).
Proof.
  intros Hm Hk w b w' Hrun _. unfold bind in Hrun.
  destruct (m w) as [[a|e|] w1] eqn:Hfirst; [|done..].
  specialize (Hm w a w1 Hfirst I). destruct (Hk a w1) as [_ Hkeys].
  rewrite Hrun in Hkeys. simpl in Hkeys. lia.
Qed.

(** ... or in what follows. *)
Lemma reading_bind_r {A B} (P : B → Prop) (m : M A) (k : A → M B) :
  tame m → (∀ a, reading P (k a)) → reading P (bind m k).
Proof.
  intros Hm Hk w b w' Hrun Hb. unfold bind in Hrun.
  destruct (Hm w) as [_ Hkeys].
  destruct (m w) as [[a|e|] w1] eqn:Hfirst; [|done..].
  specialize (Hk a w1 b w' Hrun Hb). simpl in Hkeys. lia.
Qed.

Lemma reading_return (b : bool) :
  reading goes_round (ret (inr b : bool + bool)).
Proof. intros w turn w' [= <- <-] []. Qed.

Lemma tame_check_deps_turn distro recheck : tame (check_deps_turn distro recheck).
Proof. unfold check_deps_turn. repeat tame_step. Qed.

Lemma reading_check_deps_turn distro recheck :
  reading goes_round (check_deps_turn distro recheck).
Proof.
  unfold check_deps_turn.
  apply reading_bind_r; [auto with tame|]. intros to_install.
  destruct (length to_install =? 0)%nat; [by apply reading_return|].
  apply reading_bind_r; [repeat tame_step|]. intros _.
  destruct (chek_can_install to_install distro) as [auto manual].
  destruct (negb (length manual =? 0)%nat).
  - apply reading_bind_r; [repeat tame_step|]. intros _.
    apply reading_bind_r; [auto with tame|]. intros _.
    apply reading_bind_l; [|auto with tame].
    apply reading_bind_l; [apply reading_input|auto with tame].
  - apply reading_bind_r; [auto with tame|]. intros _.
    apply reading_bind_l; [apply reading_ask|]. intros yes.
    repeat tame_step.
Qed.

Lemma check_deps_while_ends : ∀ fuel distro recheck w,
  (length (stdin w) < fuel)%nat →
  (check_deps_while fuel distro recheck w).1 ≠ Diverge.
Proof.
  induction fuel as [|fuel IH]; intros distro recheck w Hfuel; [lia|].
  simpl. unfold bind.
  destruct (tame_check_deps_turn distro recheck w) as [Hlive _].
  pose proof (reading_check_deps_turn distro recheck w) as Hread.
  destruct (check_deps_turn distro recheck w) as [[[again|result]|e|] w1];
    simpl in *; [|done..].
  apply IH. specialize (Hread (inl again) w1 eq_refl I). lia.
Qed.

(** With more fuel than keys on the terminal, [check_deps] returns or
    raises. *)
Lemma check_deps_ends fuel w :
  (length (stdin w) < fuel)%nat → (check_deps fuel w).1 ≠ Diverge.
Proof.
  intros Hfuel. unfold check_deps, bind.
  destruct (get_os_info_returns w) as ([os distro] & memo & ->).
  by apply check_deps_while_ends.
Qed.

(** ** Secure workspace *)


Lemma shutil_rmtree_below_file path w :
  fs w !! path = None →
  clear_way (fs w) path = false →
  shutil_rmtree path w = (Raise NotADirectoryError, w).
Proof.
  unfold shutil_rmtree, clear_way. intros -> Hway.
  apply negb_false_iff in Hway. by rewrite Hway.
Qed.


(** Below a regular file the final delete raises [NotADirectoryError],
    which [fs_del] lets through. *)
Lemma fs_del_under_a_file fuel path w :
  (0 < fuel)%nat →
  fs w !! path = None →
  (Popen (shred_cmd path) false (fs w)).2 !! path = None →
  clear_way (Popen (shred_cmd path) false (fs w)).2 path = false →
  ∃ w1,
    fs_del fuel path w = (Raise NotADirectoryError, w1)
    ∧ fs w1 = (Popen (shred_cmd path) false (fs w)).2.
Proof.
  intros Hfuel Hmissing Hshred Hway. destruct fuel as [|fuel]; [lia|].
  simpl. unfold bind at 1, os_path_isdir, is_dir. rewrite Hmissing.
  fold (shred_cmd path).
  destruct (run_cmd_some (shred_cmd path) false w) as (out & err & Hcmd).
  unfold bind. rewrite Hcmd. unfold ret, try_except.
  set (w1 := emit _ _).
  assert (shutil_rmtree path w1 = (Raise NotADirectoryError, w1)) as Hfile
    by (by apply shutil_rmtree_below_file).
  exists w1. rewrite Hfile. by rewrite decide_False.
Qed.


(** The mode [0o700] has no group or other bit, whatever the umask takes
    away from it. *)
Lemma owner_only mask : N.land (N.ldiff o700 mask) o077 = 0%N.
Proof.
  apply N.bits_inj_0. intros n.
  rewrite N.land_spec, N.ldiff_spec.
  destruct (N.testbit o077 n) eqn:Hlow; [|by rewrite andb_false_r].
  assert (n < 6)%N as Hn.
  { destruct (N.lt_ge_cases n 6) as [|Hge]; [done|].
    rewrite (N.bits_above_log2 o077 n) in Hlow; [done|].
    change (N.log2 o077) with 5%N. lia. }
  assert (N.testbit o700 n = false) as ->; [|done].
  assert (n = 0 ∨ n = 1 ∨ n = 2 ∨ n = 3 ∨ n = 4 ∨ n = 5)%N as Hcases by lia.
  destruct Hcases as [->|[->|[->|[->|[->| ->]]]]]; reflexivity.
Qed.

(** Acquisition: [tmp_dir] runs up to its [yield] and the workspace is a
    directory that only its owner can enter. *)
Lemma tmp_dir_acquired fuel w :
  fs w !! TMP_DIR = None →
  existsb (is_file (fs w)) (parents TMP_DIR) = false →
  ∃ w' mode,
    before_yield (tmp_dir fuel) w = (Ret TMP_DIR, w')
    ∧ fs w' !! TMP_DIR = Some (Dir mode)
    ∧ N.land mode o077 = 0%N.
Proof.
  intros Hfree Hparents. simpl. unfold bind, os_makedirs.
  rewrite Hfree, Hparents.
  eexists _, _. split; [reflexivity|]. simpl.
  split; [apply lookup_insert_eq|apply owner_only].
Qed.

(** Release happens when the body of the [with] returns ... *)
Lemma with_contextmanager_returns {Y B} (g : generator Y) (body : Y → M B) w y w1 b w2 :
  before_yield g w = (Ret y, w1) →
  body y w1 = (Ret b, w2) →
  with_contextmanager g body w = (after_yield g ;; ret b) w2.
Proof.
  intros Henter Hbody. unfold with_contextmanager, bind at 1.
  by rewrite Henter, Hbody.
Qed.

(** ... and is skipped when the body raises. *)
Lemma with_contextmanager_raises {Y B} (g : generator Y) (body : Y → M B) w y w1 e w2 :
  before_yield g w = (Ret y, w1) →
  body y w1 = (Raise e, w2) →
  with_contextmanager g body w = (Raise e, w2).
Proof.
  intros Henter Hbody. unfold with_contextmanager, bind.
  by rewrite Henter, Hbody.
Qed.

(** Ctrl+c inside [main] is caught in the body of the [with], so the body
    returns and [fs_del] does run on the workspace. *)
Lemma main_block_interrupted fuel w w1 w2 :
  before_yield (tmp_dir fuel) w = (Ret TMP_DIR, w1) →
  main fuel w1 = (Raise KeyboardInterrupt, w2) →
  main_block fuel w
  = (fs_del fuel TMP_DIR ;; print (NL +:+ "Bye"))
      (emit (EvPrint (NL +:+ CL_RED +:+ "Interrupted by user" +:+ CL_NORM)) w2).
Proof.
  intros Henter Hmain. unfold main_block, bind at 1.
  erewrite with_contextmanager_returns; [|done|].
  2:{ unfold try_except. rewrite Hmain. rewrite decide_True by done. reflexivity. }
  simpl. unfold bind.
  by destruct (fs_del fuel TMP_DIR _) as [[[]|e|] w3].
Qed.

End Properties.

(** * The script on concrete hosts *)

(** C1 fails on the code.  An Arch Linux host, standard input at end of
    file: [check_os] asks whether to go on, [input] raises [EOFError], which
    [except KeyboardInterrupt] does not catch.  The exception leaves the
    body of the [with]; [tmp_dir] has no [try]/[finally] around its
    [yield], so [fs_del] never runs: nothing was spawned, and the workspace
    directory is still there, with mode [0o700], when the process ends. *)
Theorem tmp_dir_left_behind_on_error (fuel : nat) :
  ∃ w',
    @main_block Toy.arch Toy.config fuel Toy.idle = (Raise EOFError, w')
    ∧ fs w' !! @TMP_DIR Toy.config = Some (Dir o700)
    ∧ spawned (log w') = [].
Proof.
  eexists. split; [vm_compute; reflexivity|]. split; vm_compute; reflexivity.
Qed.

(** C2 as the specification words it does not hold.  The kernel version
    string of the Arch host has no hyphen: the specification promises the
    key [#1], the first token in lower case; [get_os_info] returns the
    whole string, capitals included. *)
Lemma get_os_info_no_hyphen_counterexample :
  Str.lower (@platform_system Toy.arch) = "linux"
  ∧ @hardened Toy.arch (fs Toy.idle) = false
  ∧ spec_distribution_key (@platform_version Toy.arch) = "#1"
  ∧ (@get_os_info Toy.arch Toy.idle).1
    = Ret ("linux", "#1 SMP PREEMPT_DYNAMIC Tue, 05 Nov 2024 17:21:34 +0000")
  ∧ (@get_os_info Toy.arch Toy.idle).1
    ≠ Ret ("linux", spec_distribution_key (@platform_version Toy.arch)).
Proof.
  repeat split; try (vm_compute; reflexivity).
  vm_compute. discriminate.
Qed.

Lemma get_os_info_linux_key_witness :
  os_info_cache Toy.idle = None
  ∧ Str.lower (@platform_system Toy.ubuntu) = "linux"
  ∧ @hardened Toy.ubuntu (fs Toy.idle) = false
  ∧ ∃ key,
      (@get_os_info Toy.ubuntu Toy.idle).1 = Ret ("linux", key)
      ∧ key = "ubuntu".
Proof.
  split; [reflexivity|]. split; [vm_compute; reflexivity|].
  split; [vm_compute; reflexivity|].
  destruct (@get_os_info_linux_key Toy.ubuntu Toy.idle)
    as (key & Hrun & Hkey);
    [reflexivity | vm_compute; reflexivity | vm_compute; reflexivity |].
  exists key. split; [exact Hrun | exact Hkey].
Defined.

Lemma three_turns_keep_flag : Forall keeps_flag Toy.three_turns.
Proof. repeat constructor. Qed.

Lemma run_pre_install_once_witness :
  (2 ≤ length Toy.three_turns)%nat
  ∧ Forall keeps_flag Toy.three_turns
  ∧ ∃ first later,
      @call_sites Toy.tails Toy.config "tails" Toy.three_turns Toy.consenting
      = first :: later
      ∧ (∃ ran,
           spawned (log (@run_pre_install Toy.tails Toy.config "tails" first).2)
           = spawned (log first) ++ ran
           ∧ ran `prefix_of` ["sudo apt -q update -y "])
      ∧ later ≠ []
      ∧ Forall (fun site =>
                  @run_pre_install Toy.tails Toy.config "tails" site = (Ret true, site))
               later.
Proof.
  split; [simpl; lia|]. split; [exact three_turns_keep_flag|].
  destruct (@run_pre_install_once Toy.tails Toy.config "tails"
              Toy.three_turns Toy.consenting)
    as (first & later & Hsites & Hran & Hmore & Hidle & _);
    [simpl; lia | exact three_turns_keep_flag |].
  exists first, later. repeat split; [exact Hsites | exact Hran | exact Hmore | exact Hidle].
Defined.

Lemma run_pre_install_flag_first_witness :
  @run_pre_install Toy.tails Toy.config "tails" Toy.declining
  = ((@run_pre_install Toy.tails Toy.config "tails" Toy.declining).1,
     (@run_pre_install Toy.tails Toy.config "tails" Toy.declining).2)
  ∧ (@run_pre_install Toy.tails Toy.config "tails" Toy.declining).1 = Ret false
  ∧ PRE_INSTALL_RUNNED (@run_pre_install Toy.tails Toy.config "tails" Toy.declining).2
    = true
  ∧ ∀ (step : World → World) (distro' : string),
      keeps_flag step →
      @run_pre_install Toy.tails Toy.config distro'
        (step (@run_pre_install Toy.tails Toy.config "tails" Toy.declining).2)
      = (Ret true, step (@run_pre_install Toy.tails Toy.config "tails" Toy.declining).2).
Proof.
  split; [vm_compute; reflexivity|]. split; [vm_compute; reflexivity|].
  apply (@run_pre_install_flag_first Toy.tails Toy.config "tails" Toy.declining
           (Ret false)).
  vm_compute; reflexivity.
Defined.

Lemma check_deps_all_satisfied_witness :
  (0 < 1)%nat
  ∧ @probes_pass Toy.tails (@PKGS Toy.config) (fs Toy.provisioned) = true
  ∧ ∃ w',
      @check_deps Toy.tails Toy.config 1 Toy.provisioned = (Ret true, w')
      ∧ stdin w' = stdin Toy.provisioned
      ∧ PRE_INSTALL_RUNNED w' = PRE_INSTALL_RUNNED Toy.provisioned
      ∧ log w' = reverse (probe_event <$> @PKGS Toy.config) ++ log Toy.provisioned.
Proof.
  split; [lia|]. split; [vm_compute; reflexivity|].
  apply (@check_deps_all_satisfied Toy.tails Toy.config 1 Toy.provisioned);
    [lia | vm_compute; reflexivity].
Defined.







(** Ctrl+c at the confirmation prompt of the pre-install step: the call
    raises, and the flag is set all the same. *)
Example run_pre_install_interrupted :
  ∃ w',
    @run_pre_install Toy.tails Toy.config "tails" (Toy.world Toy.tails_fs [CtrlC])
    = (Raise KeyboardInterrupt, w')
    ∧ PRE_INSTALL_RUNNED w' = true
    ∧ spawned (log w') = [].
Proof. eexists. split; [vm_compute; reflexivity|]. split; vm_compute; reflexivity. Qed.

(** The comment above [fs_del] promises the usual delete when [shred]
    fails.  On a machine without [shred] the file is still there when
    [shutil.rmtree] is called on it, and that raises: the workspace
    survives. *)
Example fs_del_without_shred :
  ∃ w',
    @fs_del Toy.arch 3 "/tmp/ws" (Toy.world Toy.no_shred_fs [])
    = (Raise NotADirectoryError, w')
    ∧ is_dir (fs w') "/tmp/ws" = true.
Proof. eexists. split; vm_compute; reflexivity. Qed.

(** With [shred] at hand the same workspace is wiped and removed. *)
Example fs_del_with_shred :
  ∃ w',
    @fs_del Toy.arch 3 "/tmp/ws"
      (Toy.world (<["/bin/shred" := File 493]> Toy.no_shred_fs) [])
    = (Ret tt, w')
    ∧ fs w' !! "/tmp/ws" = None
    ∧ fs w' !! "/tmp/ws/key.sig" = None.
Proof. eexists. split; [vm_compute; reflexivity|]. split; vm_compute; reflexivity. Qed.

(** The scenario of section 8 for the runner: [ok, fail, ok].  The third
    command is never spawned and the code of the second is returned. *)
Example run_cmds_ok_fail_ok :
  ∃ w',
    @run_cmds Toy.arch (CmdSeq ["true"; "false"; "touch /tmp/third"]) true Toy.idle
    = (Ret 1, w')
    ∧ spawned (log w') = ["true"; "false"]
    ∧ fs w' !! "/tmp/third" = None.
Proof. eexists. split; [vm_compute; reflexivity|]. split; vm_compute; reflexivity. Qed.

(** * Beyond the stated claims *)

Section Coverage.
Context `{Host} `{Config}.

(** ** Secure workspace *)

Lemma fs_del_postcondition fuel path w w' :
  fs_del fuel path w = (Ret tt, w') → fs w' !! path = None.
Proof.
  destruct fuel as [|fuel]; [done|].
  simpl. unfold bind at 1, os_path_isdir. unfold bind at 1.
  assert (∀ w2, try_except (shutil_rmtree path) FileNotFoundError (ret tt) w2
                = (Ret tt, w') → fs w' !! path = None) as Hlast.
  { intros w2. unfold try_except, shutil_rmtree.
    destruct (fs w2 !! path) as [[mode|mode]|] eqn:Hnode.
    - done.
    - intros [= <-]. simpl. apply map_lookup_filter_None. right.
      intros node _. simpl. unfold under. by rewrite String.eqb_refl.
    - destruct (existsb (is_file (fs w2)) (parents path)); [done|].
      rewrite decide_True by done. by intros [= <-]. }
  destruct (is_dir (fs w) path);
    match goal with |- (let (_, _) := ?t in _) = _ → _ =>
      destruct t as [[[]|e|] w2]; [apply Hlast|done..] end.
Qed.

(** X1. In a file system of directories and regular files, without
    symbolic links: whenever [fs_del] returns normally, nothing is left at
    the path it was given, whether a directory, a regular file or nothing
    was there, and whatever [shred] did. *)
Theorem fs_del_returns_gone (fuel : nat) (path : string) (w w' : World) :
  fs_del fuel path w = (Ret tt, w') → fs w' !! path = None.
Proof. apply fs_del_postcondition. Qed.

(** X2. A regular file that the spawned [shred] leaves in place is not
    deleted "in the usual way": [shutil.rmtree] is called on the file,
    raises [NotADirectoryError], which [fs_del] does not catch, and the
    file is still there. *)
Theorem fs_del_file_survives (fuel : nat) (path : string) (w : World) (mode mode' : N) :
  (0 < fuel)%nat →
  fs w !! path = Some (File mode) →
  (Popen (shred_cmd path) false (fs w)).2 !! path = Some (File mode') →
  ∃ w',
    fs_del fuel path w = (Raise NotADirectoryError, w')
    ∧ fs w' !! path = Some (File mode')
    ∧ spawned (log w') = spawned (log w) ++ [shred_cmd path].
Proof.
  intros Hfuel Hfile Hshred. destruct fuel as [|fuel]; [lia|].
  simpl. unfold bind at 1, os_path_isdir, is_dir. rewrite Hfile.
  fold (shred_cmd path).
  destruct (run_cmd_some (shred_cmd path) false w) as (out & err & Hcmd).
  unfold bind. rewrite Hcmd. unfold ret, try_except, shutil_rmtree. simpl.
  rewrite Hshred. rewrite decide_False by done.
  eexists. split; [reflexivity|]. split; [exact Hshred|].
  simpl. change (?e :: log w) with ([e] ++ log w). by rewrite spawned_app.
Qed.

(** X3. When the [__main__] block runs to its end, the workspace is gone
    and the farewell is the last thing printed. *)
Theorem main_block_returns (fuel : nat) (w w' : World) :
  main_block fuel w = (Ret tt, w') →
  fs w' !! TMP_DIR = None
  ∧ ∃ l, log w' = EvPrint (NL +:+ "Bye") :: l.
Proof.
  unfold main_block, bind at 1.
  destruct (with_contextmanager _ _ w) as [[[]|e|] w1] eqn:Hwith; [|done..].
  intros [= <-]. simpl. split; [|by eexists].
  unfold with_contextmanager, bind at 1 in Hwith.
  destruct (before_yield (tmp_dir fuel) w) as [[y|e|] w2]; [|done..].
  destruct (try_except _ _ _ w2) as [[[]|e|] w3]; [|done..].
  unfold bind in Hwith. simpl in Hwith.
  destruct (fs_del fuel TMP_DIR w3) as [[[]|e|] w4] eqn:Hdel; [|done..].
  injection Hwith as <-. by apply fs_del_postcondition in Hdel.
Qed.

(** X4. A workspace path that already exists stops the run before it
    starts: [os.makedirs] raises [FileExistsError], nothing is printed
    (not even the farewell), nothing is read, and the old directory is not
    touched. *)
Theorem main_block_stale_workspace (fuel : nat) (w : World) :
  is_Some (fs w !! TMP_DIR) →
  main_block fuel w = (Raise FileExistsError, w).
Proof.
  intros [node Hnode].
  unfold main_block, bind at 1, with_contextmanager, bind at 1. simpl.
  unfold bind at 1, os_makedirs. by rewrite Hnode.
Qed.

(** ** Environment detector *)

Lemma get_os_info_remembers w r w1 :
  get_os_info w = (Ret r, w1) → os_info_cache w1 = Some r.
Proof.
  unfold get_os_info, lru_cache.
  destruct (os_info_cache w) as [r0|] eqn:Hmemo.
  - by intros [= <- <-].
  - destruct (get_os_info_body_reads w) as [r' ->]. by intros [= <- <-].
Qed.

Lemma get_os_info_served w r :
  os_info_cache w = Some r → get_os_info w = (Ret r, w).
Proof. unfold get_os_info, lru_cache. by intros ->. Qed.

(** X5. Detection is memoized: once [get_os_info] has returned a pair,
    every later call returns the same pair and does nothing, whatever
    happened to the file system or the terminal in between. *)
Theorem get_os_info_memoized (w : World) (r : string * string) (w1 : World)
        (step : World → World) :
  get_os_info w = (Ret r, w1) →
  keeps_memo step →
  get_os_info (step w1) = (Ret r, step w1).
Proof.
  intros Hfirst Hstep. apply get_os_info_served.
  rewrite Hstep. by apply (get_os_info_remembers w).
Qed.

Lemma get_os_info_body_tails w :
  Str.lower platform_system = "linux" →
  hardened (fs w) = true →
  get_os_info_body w = (Ret ("linux", "tails"), w).
Proof.
  intros Hlinux Hmarks. unfold get_os_info_body. rewrite Hlinux. simpl.
  unfold hardened in Hmarks.
  destruct (Str.contains "Debian" platform_version); [|done].
  unfold bind. rewrite looks_like_tails_reads. simpl in Hmarks.
  by rewrite Hmarks.
Qed.

Lemma get_os_info_body_other w :
  Str.lower platform_system ≠ "linux" →
  get_os_info_body w
  = (Ret (Str.lower platform_system, Str.lower platform_version), w).
Proof.
  intros Hother. unfold get_os_info_body.
  apply String.eqb_neq in Hother. by rewrite Hother.
Qed.

(** X6. On a Linux host with a Debian build, both marker directories and
    the login [amnesia], the first call of [get_os_info] answers
    [("linux", "tails")] without looking at the rest of the version
    string, and remembers it. *)
Theorem get_os_info_tails (w : World) :
  os_info_cache w = None →
  Str.lower platform_system = "linux" →
  hardened (fs w) = true →
  get_os_info w
  = (Ret ("linux", "tails"), set_os_info_cache (Some ("linux", "tails")) w).
Proof.
  intros Hfresh Hlinux Hmarks. unfold get_os_info, lru_cache.
  by rewrite Hfresh, get_os_info_body_tails.
Qed.

(** X7. On any platform other than Linux the distribution key is the
    whole version string in lower case: hyphens and blanks are kept, and
    the marker directories are not looked at. *)
Theorem get_os_info_other_platform (w : World) :
  os_info_cache w = None →
  Str.lower platform_system ≠ "linux" →
  (get_os_info w).1
  = Ret (Str.lower platform_system, Str.lower platform_version).
Proof.
  intros Hfresh Hother. unfold get_os_info, lru_cache.
  by rewrite Hfresh, get_os_info_body_other.
Qed.

(** ** Platform check *)

(** X8. On a platform other than Linux [check_os] returns false after
    printing the two notices; it never prompts, so whatever the terminal
    holds is still unread. *)
Theorem check_os_unsupported (w : World) :
  os_info_cache w = None →
  Str.lower platform_system ≠ "linux" →
  ∃ w',
    check_os w = (Ret false, w')
    ∧ stdin w' = stdin w
    ∧ fs w' = fs w
    ∧ log w' = [EvPrint RECOMMEND_OS_MSG; EvPrint WRONG_OS_MSG] ++ log w.
Proof.
  intros Hfresh Hother. unfold check_os, bind at 1.
  unfold get_os_info, lru_cache. rewrite Hfresh, get_os_info_body_other by done.
  rewrite bool_decide_eq_false_2.
  2:{ unfold SUPPORTED_OS. rewrite list_elem_of_singleton. done. }
  simpl. eexists. split; [reflexivity|]. done.
Qed.

(** X9. [check_os] lets the run go on exactly in two cases, both on
    Linux: the distribution is [tails], and then nothing is printed or
    asked; or it is not, and then the user typed the exact [Yes] after the
    recommendation was printed. *)
Theorem check_os_continue_iff (w : World) (os distro : string) (w1 w' : World) :
  get_os_info w = (Ret (os, distro), w1) →
  check_os w = (Ret true, w') ↔
  os = "linux"
  ∧ ((distro = "tails" ∧ w' = w1)
     ∨ (distro ≠ "tails"
        ∧ ∃ junk rest,
            stdin w = (Line <$> junk) ++ Line YES :: rest
            ∧ Forall off_token junk
            ∧ w' = set_stdin rest
                     (add_log (ask_log os_prompt (length junk))
                              (emit (EvPrint RECOMMEND_OS_MSG) w1)))).
Proof.
  intros Hinfo.
  assert (stdin w1 = stdin w) as Hkeys.
  { destruct (get_os_info_returns w) as (r & memo & Hret).
    rewrite Hret in Hinfo. by injection Hinfo as _ <-. }
  unfold check_os, bind at 1. rewrite Hinfo.
  unfold SUPPORTED_OS, RECOMENDED_DISTROS.
  destruct (decide (os = "linux")) as [->|Hos].
  2:{ rewrite bool_decide_eq_false_2 by (by rewrite list_elem_of_singleton).
      simpl. unfold bind, print; simpl. split; [done|tauto]. }
  rewrite bool_decide_eq_true_2 by (by rewrite list_elem_of_singleton).
  destruct (decide (distro = "tails")) as [->|Hdistro]; cbn [negb].
  - rewrite bool_decide_eq_true_2 by (by rewrite list_elem_of_singleton).
    simpl. unfold ret. split.
    + intros [= <-]. auto.
    + intros [_ [[_ ->]|[? _]]]; done.
  - rewrite bool_decide_eq_false_2 by (by rewrite list_elem_of_singleton).
    simpl. unfold bind at 1, print. fold os_prompt.
    rewrite ask_returns. simpl. rewrite Hkeys. split.
    + intros (junk & rest & Hin & Hjunk & ->). split; [done|]. right.
      split; [done|]. by exists junk, rest.
    + intros [_ [[? _]|[_ (junk & rest & Hin & Hjunk & ->)]]]; [done|].
      by exists junk, rest.
Qed.

(** ** Confirmation gate: the ways out by exception *)




(** ** Confirmation gate: what it shows and what it leaves alone *)

(** X11. The confirmation gate never acts: whatever the answer and however
    the call ends, [ask_execute] spawns nothing and leaves the flag, the
    memo and the file system as they are; for [None] it returns true
    without a prompt. *)
Theorem ask_execute_only_asks (cmds : Cmds) (w : World) :
  (∃ l, log (ask_execute cmds w).2 = l ++ log w ∧ spawned l = [])
  ∧ PRE_INSTALL_RUNNED (ask_execute cmds w).2 = PRE_INSTALL_RUNNED w
  ∧ os_info_cache (ask_execute cmds w).2 = os_info_cache w
  ∧ fs (ask_execute cmds w).2 = fs w
  ∧ (cmds = CmdNone → ask_execute cmds w = (Ret true, w)).
Proof.
  destruct (silent_ask_execute cmds w) as (l & Hlog & Hq & Hflag & Hmemo & Hfs).
  split; [by exists l|]. do 3 (split; [done|]). by intros ->.
Qed.

Lemma lstrip_head s :
  Str.lstrip s = EmptyString
  ∨ ∃ c t, Str.lstrip s = String c t ∧ Str.isspace c = false.
Proof.
  induction s as [|c s IH]; simpl; [by left|].
  destruct (Str.isspace c) eqn:Hc; [done|]. right. by exists c, s.
Qed.

Lemma rstrip_head c t :
  Str.isspace c = false → ∃ t', Str.rstrip (String c t) = String c t'.
Proof.
  intros Hc. simpl. destruct (Str.rstrip t); [|by eexists].
  rewrite Hc. by eexists.
Qed.

Lemma startswith_head p c t t' :
  Str.startswith (String p EmptyString) (String c t)
  = Str.startswith (String p EmptyString) (String c t').
Proof.
  unfold Str.startswith. simpl. destruct (ascii_dec p c); [|done].
  by destruct t, t'.
Qed.

(** X12. The preview and the runner agree on what a comment is: a line is
    shown greyed by [ask_execute] (test on [lstrip]) exactly when
    [run_cmds] skips it (test on [strip]). *)
Theorem preview_comment_is_skipped (cmd : string) :
  Str.startswith "#" (Str.lstrip cmd) = is_comment cmd.
Proof.
  unfold is_comment, Str.strip.
  destruct (lstrip_head cmd) as [->|(c & t & -> & Hc)]; [done|].
  destruct (rstrip_head c t Hc) as [t' ->]. apply startswith_head.
Qed.

(** ** Batch install *)

Lemma install_deps_for_pure distro deps : ∀ commands w,
  (install_deps_for distro deps commands w).2 = w.
Proof.
  induction deps as [|dep rest IH]; intros commands w; simpl; [done|].
  destruct (PKGS_ISNTALL dep !! distro) as [[|cmd|cmd]|]; simpl; auto.
Qed.

Lemma install_deps_for_gathers distro deps : ∀ commands w,
  (∀ dep, dep ∈ deps → is_Some (PKGS_ISNTALL dep !! distro)) →
  (∀ dep, dep ∈ deps → PKGS_ISNTALL dep !! distro ≠ Some CmdNone) →
  install_deps_for distro deps commands w = (Ret (commands ++ batch distro deps), w).
Proof.
  induction deps as [|dep rest IH]; intros commands w Hsome Hnone; simpl.
  - unfold batch. simpl. by rewrite app_nil_r.
  - pose proof (Hsome dep ltac:(left)) as [cmds Hcmds].
    pose proof (Hnone dep ltac:(left)) as Hnot.
    unfold batch. rewrite fmap_cons. simpl. rewrite Hcmds in *. simpl.
    destruct cmds as [|cmd|cmd]; [done| |];
      (rewrite IH; [by rewrite <- app_assoc| |];
       intros d Hd; [apply Hsome|apply Hnone]; by right).
Qed.

Lemma install_deps_for_missing distro deps : ∀ commands w,
  (∃ dep, dep ∈ deps ∧ PKGS_ISNTALL dep !! distro = None) →
  (∀ dep, dep ∈ deps → PKGS_ISNTALL dep !! distro ≠ Some CmdNone) →
  install_deps_for distro deps commands w = (Raise KeyError, w).
Proof.
  induction deps as [|dep rest IH]; intros commands w (bad & Hin & Hbad) Hnone.
  - by apply elem_of_nil in Hin.
  - simpl. pose proof (Hnone dep ltac:(left)) as Hnot.
    destruct (PKGS_ISNTALL dep !! distro) as [[|cmd|cmd]|] eqn:Hdep; [done| | |done];
      (apply IH; [|intros d Hd; apply Hnone; by right]);
      (apply elem_of_cons in Hin as [->|Hin]; [congruence|by exists bad]).
Qed.

(** X13. [install_deps] on a list that holds a package without a recipe
    for the distribution raises [KeyError] while it gathers the commands:
    before any prompt, before any command, with the world as it was. *)
Theorem install_deps_missing_recipe (distro : string) (deps : list Package) (w : World) :
  (∃ dep, dep ∈ deps ∧ PKGS_ISNTALL dep !! distro = None) →
  (∀ dep, dep ∈ deps → PKGS_ISNTALL dep !! distro ≠ Some CmdNone) →
  install_deps distro deps w = (Raise KeyError, w).
Proof.
  intros Hbad Hnone. unfold install_deps, bind.
  by rewrite install_deps_for_missing.
Qed.

(** X14. The planner and the installer fit: on the auto-installable list
    that [chek_can_install] returns, gathering never raises [KeyError] and
    yields the recipes of those packages flattened in registry order
    (single strings and sequences alike). *)
Theorem install_deps_for_planned (distro : string) (deps : list Package) (w : World) :
  (∀ dep, dep ∈ deps → PKGS_ISNTALL dep !! distro ≠ Some CmdNone) →
  install_deps_for distro (chek_can_install deps distro).1 [] w
  = (Ret (batch distro (chek_can_install deps distro).1), w).
Proof.
  intros Hnone. unfold chek_can_install. rewrite chek_can_install_fold. simpl.
  apply (install_deps_for_gathers distro _ []).
  - by intros dep [Hsome _]%list_elem_of_filter.
  - intros dep [_ Hin]%list_elem_of_filter. by apply Hnone.
Qed.

Lemma ask_execute_true cmds w w1 :
  ask_execute cmds w = (Ret true, w1) →
  (cmds = CmdNone ∧ w1 = w)
  ∨ ∃ prompt junk rest,
      stdin w = (Line <$> junk) ++ Line YES :: rest
      ∧ Forall off_token junk
      ∧ w1 = set_stdin rest (add_log (ask_log prompt (length junk)) w).
Proof.
  unfold ask_execute. destruct cmds as [|cmd|cmds].
  - intros [= <-]. by left.
  - intros (junk & rest & ? & ? & ?)%ask_returns. right. by eexists _, junk, rest.
  - intros (junk & rest & ? & ? & ?)%ask_returns. right. by eexists _, junk, rest.
Qed.

(** X15. [install_deps] returns true only after the whole batch went
    through: the user typed the exact [Yes] at the preview, and then every
    entry of the flattened batch that is not a comment was run, in order,
    interactively, each exiting with 0. *)
Theorem install_deps_true_only (distro : string) (deps : list Package) (w w' : World) :
  install_deps distro deps w = (Ret true, w') →
  ∃ commands prompt junk rest (ran : list (string * Z)),
    install_deps_for distro deps [] w = (Ret commands, w)
    ∧ stdin w = (Line <$> junk) ++ Line YES :: rest
    ∧ Forall off_token junk
    ∧ stdin w' = rest
    ∧ ran.*1 = runnable (CmdSeq commands)
    ∧ Forall (fun run => run.2 = 0) ran
    ∧ log w' = reverse (exec_event true <$> ran)
               ++ ask_log prompt (length junk) ++ log w.
Proof.
  unfold install_deps, bind at 1.
  pose proof (install_deps_for_pure distro deps [] w) as Hpure.
  destruct (install_deps_for distro deps [] w) as [[commands|e|] w0]; [|done..].
  simpl in Hpure. subst w0. unfold bind at 1.
  destruct (ask_execute (CmdSeq commands) w) as [[[|]|e|] w1] eqn:Hask; [|done..].
  apply ask_execute_true in Hask
    as [[? _]|(prompt & junk & rest & Hkeys & Hjunk & ->)]; [done|].
  simpl. unfold bind.
  destruct (run_cmds_trace (CmdSeq commands) true
              (set_stdin rest (add_log (ask_log prompt (length junk)) w)))
    as (ran & code & w2 & Hrun & Hlog & Hin & _ & _ & Hcases).
  simpl in Hrun. rewrite Hrun. unfold ret. intros [= Hcode <-].
  apply Z.eqb_eq in Hcode.
  destruct Hcases as [(Hall & Hok & _)|(? & ? & _ & _ & ? & _)]; [|done].
  exists commands, prompt, junk, rest, ran. by repeat split.
Qed.

(** X16. No install command runs without consent: if a call of
    [install_deps] spawned anything at all, however it ended, then the user
    had typed the exact [Yes] (after answers that are neither [Yes] nor
    [No]). *)
Theorem install_deps_needs_yes (distro : string) (deps : list Package)
        (w : World) (r : outcome bool) (w' : World) :
  install_deps distro deps w = (r, w') →
  spawned (log w') ≠ spawned (log w) →
  ∃ junk rest,
    stdin w = (Line <$> junk) ++ Line YES :: rest ∧ Forall off_token junk.
Proof.
  unfold install_deps, bind at 1.
  pose proof (install_deps_for_pure distro deps [] w) as Hpure.
  destruct (install_deps_for distro deps [] w) as [[commands|e|] w0];
    simpl in Hpure; subst w0; [|by intros [= _ <-]..].
  unfold bind at 1.
  destruct (silent_ask_execute (CmdSeq commands) w) as (l & Hlog & Hq & _).
  destruct (ask_execute (CmdSeq commands) w) as [[[|]|e|] w1] eqn:Hask;
    simpl in Hlog.
  - intros _ _.
    apply ask_execute_true in Hask as [[? _]|(? & junk & rest & ? & ? & _)]; [done|].
    by exists junk, rest.
  - intros [= _ <-]. rewrite Hlog, spawned_app, Hq, app_nil_r. done.
  - intros [= _ <-]. rewrite Hlog, spawned_app, Hq, app_nil_r. done.
  - intros [= _ <-]. rewrite Hlog, spawned_app, Hq, app_nil_r. done.
Qed.

(** X17. The same for the pre-install step: if a call of
    [run_pre_install] spawned anything, the flag was not yet set, the
    distribution has registered commands, and the user had typed the
    exact [Yes]. *)
Theorem run_pre_install_needs_yes (distro : string) (w : World)
        (r : outcome bool) (w' : World) :
  run_pre_install distro w = (r, w') →
  spawned (log w') ≠ spawned (log w) →
  PRE_INSTALL_RUNNED w = false
  ∧ is_Some (PRE_INSTALL !! distro)
  ∧ ∃ junk rest,
      stdin w = (Line <$> junk) ++ Line YES :: rest ∧ Forall off_token junk.
Proof.
  unfold run_pre_install.
  destruct (PRE_INSTALL_RUNNED w) eqn:Hflag; [by intros [= _ <-]|].
  destruct (PRE_INSTALL !! distro) as [cmds|]; [|by intros [= _ <-]].
  set (w0 := set_PRE_INSTALL_RUNNED true w). unfold bind at 1.
  destruct (silent_ask_execute cmds w0) as (l & Hlog & Hq & _).
  destruct (ask_execute cmds w0) as [[[|]|e|] w1] eqn:Hask; simpl in Hlog.
  - apply ask_execute_true in Hask as [[-> ->]|(? & junk & rest & Hkeys & ? & _)].
    + simpl. unfold bind, ret. by intros [= _ <-].
    + intros _ _. split; [done|]. split; [done|]. by exists junk, rest.
  - intros [= _ <-]. rewrite Hlog, spawned_app, Hq, app_nil_r. done.
  - intros [= _ <-]. rewrite Hlog, spawned_app, Hq, app_nil_r. done.
  - intros [= _ <-]. rewrite Hlog, spawned_app, Hq, app_nil_r. done.
Qed.

(** ** Provisioning loop *)

Lemma probe_for_effect pkgs : ∀ to_install w,
  ∃ (ran : list (string * Z)) w1,
    probe_for pkgs to_install w
    = (Ret (to_install
            ++ (filter (fun pr : Package * (string * Z) => pr.2.2 ≠ (check_of pr.1).2)
                       (zip pkgs ran)).*1), w1)
    ∧ ran.*1 = probe_cmds pkgs
    ∧ log w1 = reverse (exec_event false <$> ran) ++ log w
    ∧ stdin w1 = stdin w
    ∧ PRE_INSTALL_RUNNED w1 = PRE_INSTALL_RUNNED w.
Proof.
  induction pkgs as [|pkg rest IH]; intros to_install w.
  - exists [], w. simpl. by rewrite app_nil_r.
  - simpl. destruct (check_of pkg) as [check_cmd req_code] eqn:Hcheck.
    destruct (run_cmd_some check_cmd false w) as (out & err & Hcmd).
    unfold bind. rewrite Hcmd.
    set (code := returncode (Popen check_cmd false (fs w)).1).
    set (w0 := emit _ _).
    destruct (IH (if negb (code =? req_code) then to_install ++ [pkg] else to_install) w0)
      as (ran & w1 & Hrun & Hcmds & Hlog & Hkeys & Hflag).
    exists ((check_cmd, code) :: ran), w1. split.
    + destruct (negb (code =? req_code)) eqn:Hcode; rewrite Hrun; f_equal; f_equal;
        simpl; rewrite filter_cons; simpl; rewrite Hcheck; simpl.
      * apply negb_true_iff, Z.eqb_neq in Hcode.
        rewrite decide_True by done. by rewrite <- app_assoc.
      * apply negb_false_iff, Z.eqb_eq in Hcode.
        rewrite decide_False by (intros ?; done). done.
    + split; [unfold probe_cmds in *; by rewrite !fmap_cons, Hcmds|].
      split; [rewrite Hlog, fmap_cons, reverse_cons, <- app_assoc; done|].
      done.
Qed.

(** X18. Each turn probes the whole registry afresh: every package once,
    in registry order, not interactively; and the packages it collects are
    exactly those whose probe exited with a code other than the expected
    one, in registry order.  The terminal and the flag are not touched. *)
Theorem probe_for_collects (pkgs : list Package) (w : World) :
  ∃ (ran : list (string * Z)) w1,
    probe_for pkgs [] w
    = (Ret (filter (fun pr : Package * (string * Z) => pr.2.2 ≠ (check_of pr.1).2)
                   (zip pkgs ran)).*1, w1)
    ∧ ran.*1 = probe_cmds pkgs
    ∧ log w1 = reverse (exec_event false <$> ran) ++ log w
    ∧ stdin w1 = stdin w
    ∧ PRE_INSTALL_RUNNED w1 = PRE_INSTALL_RUNNED w.
Proof. apply (probe_for_effect pkgs []). Qed.

Lemma add_log_nil w : add_log [] w = w.
Proof. by apply world_eq. Qed.

Lemma add_log_app l2 l1 w : add_log l2 (add_log l1 w) = add_log (l2 ++ l1) w.
Proof. apply world_eq; simpl; try done. by rewrite app_assoc. Qed.

Lemma chatty_ret : chatty (ret tt).
Proof. intros w. exists []. by rewrite add_log_nil. Qed.

Lemma chatty_print text : chatty (print text).
Proof. intros w. by exists [EvPrint text]. Qed.

Lemma chatty_bind (m k : M unit) : chatty m → chatty k → chatty (m ;; k).
Proof.
  intros Hm Hk w. unfold bind.
  destruct (Hm w) as (l1 & -> & Hq1). destruct (Hk (add_log l1 w)) as (l2 & -> & Hq2).
  exists (l2 ++ l1). by rewrite add_log_app, spawned_app, Hq1, Hq2.
Qed.

Lemma chatty_for_each {A} (l : list A) (body : A → M unit) :
  (∀ x, chatty (body x)) → chatty (for_each l body).
Proof.
  intros Hbody. induction l as [|x l IH]; simpl; [apply chatty_ret|].
  by apply chatty_bind.
Qed.

Lemma bind_chatty {B} (m : M unit) (k : unit → M B) w :
  chatty m →
  ∃ l, bind m k w = k tt (add_log l w) ∧ spawned l = [].
Proof.
  intros Hm. destruct (Hm w) as (l & Hrun & Hq). exists l.
  unfold bind. by rewrite Hrun.
Qed.

Ltac chatty_solve :=
  repeat first
    [ apply chatty_print
    | apply chatty_ret
    | apply chatty_for_each; intros ?
    | apply chatty_bind
    | match goal with |- chatty (if ?c then _ else _) => destruct c end ].

Ltac chat :=
  match goal with
  | |- context [bind ?m ?k ?w] =>
      let Hc := fresh "Hc" in
      assert (chatty m) as Hc by chatty_solve;
      let l := fresh "l" in
      let Hq := fresh "Hq" in
      destruct (bind_chatty m k w Hc) as (l & -> & Hq); clear Hc
  end.

Lemma chek_can_install_nil distro : chek_can_install [] distro = ([], []).
Proof. done. Qed.

(** X19. One package that cannot be installed automatically blocks the
    whole turn: if any package that failed its probe has no recipe for the
    distribution, [check_deps] asks for no consent and installs nothing,
    not even the packages that do have a recipe.  It prints, waits for one
    line (any line), and goes round again with the banner switched off;
    only the probes were spawned and the flag is as before. *)
Theorem check_deps_manual_block (distro : string) (recheck : bool) (w : World)
        (to_install : list Package) (w1 : World) (auto manual : list Package)
        (s : string) (rest : list key) :
  probe_for PKGS [] w = (Ret to_install, w1) →
  chek_can_install to_install distro = (auto, manual) →
  manual ≠ [] →
  stdin w = Line s :: rest →
  ∃ w',
    check_deps_turn distro recheck w = (Ret (inl true), w')
    ∧ spawned (log w') = spawned (log w1)
    ∧ PRE_INSTALL_RUNNED w' = PRE_INSTALL_RUNNED w
    ∧ stdin w' = rest
    ∧ fs w' = fs w1.
Proof.
  intros Hprobe Hplan Hmanual Hkeys.
  destruct (probe_for_effect PKGS [] w) as (ran & w0 & Hrun & _ & _ & Hkeys1 & Hflag1).
  rewrite Hprobe in Hrun. injection Hrun as _ <-.
  unfold check_deps_turn, bind at 1. rewrite Hprobe.
  destruct to_install as [|pkg more].
  { rewrite chek_can_install_nil in Hplan. by injection Hplan as _ <-. }
  cbn [length Nat.eqb]. chat. rewrite Hplan.
  destruct manual as [|dep deps]; [done|]. cbn [length Nat.eqb negb].
  chat. chat.
  unfold bind, ask_continue, bind, input. simpl. rewrite Hkeys1, Hkeys. simpl.
  eexists. split; [reflexivity|]. simpl.
  split; [|by rewrite Hflag1].
  match goal with |- spawned (?e :: ?L) = _ => change (e :: L) with ([e] ++ L) end.
  rewrite !spawned_app, Hq, Hq0, Hq1. simpl. by rewrite !app_nil_r.
Qed.

(** X20. The loop cannot spin: a turn of [check_deps] that goes round
    again has taken at least one key from the terminal. *)
Theorem check_deps_turn_reads (distro : string) (recheck again : bool) (w w' : World) :
  check_deps_turn distro recheck w = (Ret (inl again), w') →
  (length (stdin w') < length (stdin w))%nat.
Proof.
  intros Hturn.
  by apply (reading_check_deps_turn distro recheck w (inl again) w').
Qed.

(** ** Start-up *)

(** X21. Once [check_os] has let the run go on, [init] never ends with
    [KeyboardInterrupt]: Ctrl+c while the dependencies are checked is
    turned into two warning lines and the answer true, as if everything
    were installed; only a false from [check_deps] makes [init] false. *)
Theorem init_swallows_interrupt (fuel : nat) (w w1 : World) :
  check_os w = (Ret true, w1) →
  (init fuel w).1 ≠ Raise KeyboardInterrupt
  ∧ (∀ w2, check_deps fuel w1 = (Raise KeyboardInterrupt, w2) →
           ∃ l, init fuel w = (Ret true, add_log l w2)
                ∧ length l = 2%nat ∧ spawned l = [])
  ∧ (∀ b w2, check_deps fuel w1 = (Ret b, w2) → init fuel w = (Ret b, w2)).
Proof.
  intros Hos.
  assert (∃ l, length l = 2%nat ∧ spawned l = []
               ∧ init fuel w
                 = match check_deps fuel w1 with
                   | (Ret b, w2) => (Ret b, w2)
                   | (Raise e, w2) =>
                       if decide (e = KeyboardInterrupt) then (Ret true, add_log l w2)
                       else (Raise e, w2)
                   | (Diverge, w2) => (Diverge, w2)
                   end) as (l & Hlen & Hquiet & ->).
  { exists [EvPrint (CL_YELLOW +:+ "Continue without them. " +:+ CL_RED
                      +:+ "It may cause problems" +:+ CL_NORM +:+ NL);
            EvPrint (NL +:+ NL +:+ CL_RED
                      +:+ "Dependencies cheking interrupted by user" +:+ CL_NORM)].
    split; [done|]. split; [done|].
    unfold init, bind at 1. rewrite Hos. simpl.
    unfold bind at 1, try_except, bind at 1.
    destruct (check_deps fuel w1) as [[[|]|e|] w2]; simpl; [done..| |done].
    destruct (decide (e = KeyboardInterrupt)); simpl; [reflexivity|done]. }
  destruct (check_deps fuel w1) as [[b|e|] w2]; simpl.
  - split; [done|]. split; [done|]. by intros ? ? [= <- <-].
  - destruct (decide (e = KeyboardInterrupt)) as [->|He]; simpl.
    + split; [done|]. split; [|done]. intros ? [= <-]. by exists l.
    + split; [by intros [= ->]|]. split; [by intros ? [= ->]|done].
  - done.
Qed.

(** ** Choice of the [ykman] command *)

(** X22. [get_ykman_cmd] never picks the AppImage spelling.  Its first
    call spawns [ykman ykman] once, not interactively, and then, whatever
    that exits with, answers [ykman] (a tuple is compared with [0]); the
    answer is kept, and a call with a kept answer returns it and does
    nothing. *)
Theorem get_ykman_cmd_always_plain (w : World) :
  (∃ w1,
     get_ykman_cmd None w = ((Ret "ykman", w1), Some "ykman")
     ∧ spawned (log w1) = spawned (log w) ++ ["ykman ykman"]
     ∧ get_ykman_cmd (get_ykman_cmd None w).2 w1 = ((Ret "ykman", w1), Some "ykman"))
  ∧ ∀ r, get_ykman_cmd (Some r) w = ((Ret r, w), Some r).
Proof.
  split; [|done].
  unfold get_ykman_cmd at 1 3, get_ykman_cmd_body, bind.
  destruct (run_cmd_some "ykman ykman" false w) as (out & err & ->).
  simpl. eexists. split; [reflexivity|]. split; [|done].
  simpl. match goal with |- spawned (?e :: ?L) = _ => change (e :: L) with ([e] ++ L) end.
  by rewrite spawned_app.
Qed.

End Coverage.

(** * The further properties on concrete hosts *)

Lemma fs_del_returns_gone_witness :
  @fs_del Toy.arch 3 "/tmp/ws" Toy.with_shred
  = (Ret tt, (@fs_del Toy.arch 3 "/tmp/ws" Toy.with_shred).2)
  ∧ fs (@fs_del Toy.arch 3 "/tmp/ws" Toy.with_shred).2 !! "/tmp/ws" = None.
Proof.
  split; [vm_compute; reflexivity|].
  apply (@fs_del_returns_gone Toy.arch 3 "/tmp/ws" Toy.with_shred
           (@fs_del Toy.arch 3 "/tmp/ws" Toy.with_shred).2).
  vm_compute; reflexivity.
Defined.

Lemma fs_del_file_survives_witness :
  (0 < 1)%nat
  ∧ fs Toy.no_shred !! "/tmp/ws/key.sig" = Some (File 420)
  ∧ (@Popen Toy.arch (shred_cmd "/tmp/ws/key.sig") false (fs Toy.no_shred)).2
      !! "/tmp/ws/key.sig" = Some (File 420)
  ∧ ∃ w',
      @fs_del Toy.arch 1 "/tmp/ws/key.sig" Toy.no_shred = (Raise NotADirectoryError, w')
      ∧ fs w' !! "/tmp/ws/key.sig" = Some (File 420)
      ∧ spawned (log w') = spawned (log Toy.no_shred) ++ [shred_cmd "/tmp/ws/key.sig"].
Proof.
  split; [lia|]. split; [vm_compute; reflexivity|]. split; [vm_compute; reflexivity|].
  apply (@fs_del_file_survives Toy.arch 1 "/tmp/ws/key.sig" Toy.no_shred 420 420);
    [lia | vm_compute; reflexivity | vm_compute; reflexivity].
Defined.

Lemma main_block_returns_witness :
  @main_block Toy.mac Toy.config 2 Toy.idle
  = (Ret tt, (@main_block Toy.mac Toy.config 2 Toy.idle).2)
  ∧ fs (@main_block Toy.mac Toy.config 2 Toy.idle).2 !! @TMP_DIR Toy.config = None
  ∧ ∃ l, log (@main_block Toy.mac Toy.config 2 Toy.idle).2 = EvPrint (NL +:+ "Bye") :: l.
Proof.
  split; [vm_compute; reflexivity|].
  apply (@main_block_returns Toy.mac Toy.config 2 Toy.idle
           (@main_block Toy.mac Toy.config 2 Toy.idle).2).
  vm_compute; reflexivity.
Defined.

Lemma main_block_stale_workspace_witness :
  is_Some (fs Toy.stale !! @TMP_DIR Toy.config)
  ∧ @main_block Toy.arch Toy.config 1 Toy.stale = (Raise FileExistsError, Toy.stale).
Proof.
  assert (is_Some (fs Toy.stale !! @TMP_DIR Toy.config)) as Hstale
    by (eexists; vm_compute; reflexivity).
  split; [exact Hstale|].
  apply (@main_block_stale_workspace Toy.arch Toy.config 1 Toy.stale Hstale).
Defined.

Lemma markers_appear_keeps_memo : keeps_memo Toy.markers_appear.
Proof. by intros w. Qed.

Lemma get_os_info_memoized_witness :
  @get_os_info Toy.tails Toy.idle
  = (Ret ("linux", "1"), set_os_info_cache (Some ("linux", "1")) Toy.idle)
  ∧ keeps_memo Toy.markers_appear
  ∧ @hardened Toy.tails
      (fs (Toy.markers_appear (set_os_info_cache (Some ("linux", "1")) Toy.idle))) = true
  ∧ @get_os_info Toy.tails
      (Toy.markers_appear (set_os_info_cache (Some ("linux", "1")) Toy.idle))
    = (Ret ("linux", "1"),
       Toy.markers_appear (set_os_info_cache (Some ("linux", "1")) Toy.idle)).
Proof.
  split; [vm_compute; reflexivity|]. split; [exact markers_appear_keeps_memo|].
  split; [vm_compute; reflexivity|].
  apply (@get_os_info_memoized Toy.tails Toy.idle);
    [vm_compute; reflexivity | exact markers_appear_keeps_memo].
Defined.

Lemma get_os_info_tails_witness :
  os_info_cache (Toy.on_tails []) = None
  ∧ Str.lower (@platform_system Toy.tails) = "linux"
  ∧ @hardened Toy.tails (fs (Toy.on_tails [])) = true
  ∧ @get_os_info Toy.tails (Toy.on_tails [])
    = (Ret ("linux", "tails"),
       set_os_info_cache (Some ("linux", "tails")) (Toy.on_tails [])).
Proof.
  split; [reflexivity|]. split; [vm_compute; reflexivity|].
  split; [vm_compute; reflexivity|].
  apply (@get_os_info_tails Toy.tails (Toy.on_tails []));
    [reflexivity | vm_compute; reflexivity | vm_compute; reflexivity].
Defined.

Lemma mac_is_not_linux : Str.lower (@platform_system Toy.mac) ≠ "linux".
Proof. vm_compute. discriminate. Qed.

Lemma get_os_info_other_platform_witness :
  os_info_cache Toy.idle = None
  ∧ Str.lower (@platform_system Toy.mac) ≠ "linux"
  ∧ (@get_os_info Toy.mac Toy.idle).1
    = Ret ("darwin", "darwin kernel version 23.1.0: mon oct 9 21:27:24 pdt 2023").
Proof.
  split; [reflexivity|]. split; [exact mac_is_not_linux|].
  apply (@get_os_info_other_platform Toy.mac Toy.idle);
    [reflexivity | exact mac_is_not_linux].
Defined.

Lemma check_os_unsupported_witness :
  os_info_cache Toy.yes_on_plain = None
  ∧ Str.lower (@platform_system Toy.mac) ≠ "linux"
  ∧ ∃ w',
      @check_os Toy.mac Toy.yes_on_plain = (Ret false, w')
      ∧ stdin w' = [Line "Yes"]
      ∧ fs w' = fs Toy.yes_on_plain
      ∧ log w' = [EvPrint RECOMMEND_OS_MSG; EvPrint WRONG_OS_MSG] ++ log Toy.yes_on_plain.
Proof.
  split; [reflexivity|]. split; [exact mac_is_not_linux|].
  apply (@check_os_unsupported Toy.mac Toy.yes_on_plain);
    [reflexivity | exact mac_is_not_linux].
Defined.

Lemma check_os_continue_iff_witness :
  @get_os_info Toy.ubuntu Toy.yes_on_plain
  = (Ret ("linux", "ubuntu"), (@get_os_info Toy.ubuntu Toy.yes_on_plain).2)
  ∧ (@check_os Toy.ubuntu Toy.yes_on_plain
     = (Ret true, (@check_os Toy.ubuntu Toy.yes_on_plain).2) ↔
     "linux" = "linux"
     ∧ (("ubuntu" = "tails"
         ∧ (@check_os Toy.ubuntu Toy.yes_on_plain).2
           = (@get_os_info Toy.ubuntu Toy.yes_on_plain).2)
        ∨ ("ubuntu" ≠ "tails"
           ∧ ∃ junk rest,
               stdin Toy.yes_on_plain = (Line <$> junk) ++ Line YES :: rest
               ∧ Forall off_token junk
               ∧ (@check_os Toy.ubuntu Toy.yes_on_plain).2
                 = set_stdin rest
                     (add_log (ask_log os_prompt (length junk))
                        (emit (EvPrint RECOMMEND_OS_MSG)
                           (@get_os_info Toy.ubuntu Toy.yes_on_plain).2))))).
Proof.
  split; [vm_compute; reflexivity|].
  apply (@check_os_continue_iff Toy.ubuntu Toy.yes_on_plain "linux" "ubuntu"
           (@get_os_info Toy.ubuntu Toy.yes_on_plain).2
           (@check_os Toy.ubuntu Toy.yes_on_plain).2).
  vm_compute; reflexivity.
Defined.

Lemma mixed_has_no_none dep :
  dep ∈ @PKGS Toy.mixed → PKGS_ISNTALL dep !! "arch" ≠ Some CmdNone.
Proof.
  intros Hin. repeat (apply elem_of_cons in Hin as [->|Hin]);
    [vm_compute; discriminate..|by apply elem_of_nil in Hin].
Qed.

Lemma mixed_lacks_recipe :
  ∃ dep, dep ∈ @PKGS Toy.mixed ∧ PKGS_ISNTALL dep !! "arch" = None.
Proof. exists Toy.ykman_pkg. split; [repeat constructor|vm_compute; reflexivity]. Qed.

Lemma install_deps_missing_recipe_witness :
  (∃ dep, dep ∈ @PKGS Toy.mixed ∧ PKGS_ISNTALL dep !! "arch" = None)
  ∧ (∀ dep, dep ∈ @PKGS Toy.mixed → PKGS_ISNTALL dep !! "arch" ≠ Some CmdNone)
  ∧ @install_deps Toy.arch "arch" (@PKGS Toy.mixed) Toy.yes_on_plain
    = (Raise KeyError, Toy.yes_on_plain).
Proof.
  split; [exact mixed_lacks_recipe|]. split; [exact mixed_has_no_none|].
  apply (@install_deps_missing_recipe Toy.arch "arch" (@PKGS Toy.mixed) Toy.yes_on_plain
           mixed_lacks_recipe mixed_has_no_none).
Defined.

Lemma install_deps_for_planned_witness :
  (∀ dep, dep ∈ @PKGS Toy.mixed → PKGS_ISNTALL dep !! "arch" ≠ Some CmdNone)
  ∧ batch "arch" (chek_can_install (@PKGS Toy.mixed) "arch").1
    = ["sudo apt -qq install -y argon2"]
  ∧ install_deps_for "arch" (chek_can_install (@PKGS Toy.mixed) "arch").1 [] Toy.idle
    = (Ret (batch "arch" (chek_can_install (@PKGS Toy.mixed) "arch").1), Toy.idle).
Proof.
  split; [exact mixed_has_no_none|]. split; [vm_compute; reflexivity|].
  apply (install_deps_for_planned "arch" (@PKGS Toy.mixed) Toy.idle mixed_has_no_none).
Defined.

Lemma install_deps_true_only_witness :
  @install_deps Toy.arch "arch" [Toy.argon2_pkg] Toy.yes_on_plain
  = (Ret true, (@install_deps Toy.arch "arch" [Toy.argon2_pkg] Toy.yes_on_plain).2)
  ∧ ∃ commands prompt junk rest (ran : list (string * Z)),
      install_deps_for "arch" [Toy.argon2_pkg] [] Toy.yes_on_plain
      = (Ret commands, Toy.yes_on_plain)
      ∧ stdin Toy.yes_on_plain = (Line <$> junk) ++ Line YES :: rest
      ∧ Forall off_token junk
      ∧ stdin (@install_deps Toy.arch "arch" [Toy.argon2_pkg] Toy.yes_on_plain).2 = rest
      ∧ ran.*1 = runnable (CmdSeq commands)
      ∧ Forall (fun run => run.2 = 0) ran
      ∧ log (@install_deps Toy.arch "arch" [Toy.argon2_pkg] Toy.yes_on_plain).2
        = reverse (exec_event true <$> ran)
          ++ ask_log prompt (length junk) ++ log Toy.yes_on_plain.
Proof.
  split; [vm_compute; reflexivity|].
  apply (@install_deps_true_only Toy.arch "arch" [Toy.argon2_pkg] Toy.yes_on_plain
           (@install_deps Toy.arch "arch" [Toy.argon2_pkg] Toy.yes_on_plain).2).
  vm_compute; reflexivity.
Defined.

Lemma install_deps_needs_yes_witness :
  @install_deps Toy.arch "arch" [Toy.argon2_pkg] Toy.yes_on_plain
  = (Ret true, (@install_deps Toy.arch "arch" [Toy.argon2_pkg] Toy.yes_on_plain).2)
  ∧ spawned (log (@install_deps Toy.arch "arch" [Toy.argon2_pkg] Toy.yes_on_plain).2)
    ≠ spawned (log Toy.yes_on_plain)
  ∧ ∃ junk rest,
      stdin Toy.yes_on_plain = (Line <$> junk) ++ Line YES :: rest
      ∧ Forall off_token junk.
Proof.
  assert (spawned (log (@install_deps Toy.arch "arch" [Toy.argon2_pkg]
                          Toy.yes_on_plain).2)
          ≠ spawned (log Toy.yes_on_plain)) as Hran
    by (vm_compute; discriminate).
  split; [vm_compute; reflexivity|]. split; [exact Hran|].
  apply (@install_deps_needs_yes Toy.arch "arch" [Toy.argon2_pkg] Toy.yes_on_plain
           (Ret true)
           (@install_deps Toy.arch "arch" [Toy.argon2_pkg] Toy.yes_on_plain).2);
    [vm_compute; reflexivity | exact Hran].
Defined.

Lemma run_pre_install_needs_yes_witness :
  @run_pre_install Toy.tails Toy.config "tails" Toy.consenting
  = (Ret true, (@run_pre_install Toy.tails Toy.config "tails" Toy.consenting).2)
  ∧ spawned (log (@run_pre_install Toy.tails Toy.config "tails" Toy.consenting).2)
    ≠ spawned (log Toy.consenting)
  ∧ PRE_INSTALL_RUNNED Toy.consenting = false
  ∧ is_Some (@PRE_INSTALL Toy.config !! "tails")
  ∧ ∃ junk rest,
      stdin Toy.consenting = (Line <$> junk) ++ Line YES :: rest
      ∧ Forall off_token junk.
Proof.
  assert (spawned (log (@run_pre_install Toy.tails Toy.config "tails"
                          Toy.consenting).2)
          ≠ spawned (log Toy.consenting)) as Hran
    by (vm_compute; discriminate).
  split; [vm_compute; reflexivity|]. split; [exact Hran|].
  apply (@run_pre_install_needs_yes Toy.tails Toy.config "tails" Toy.consenting
           (Ret true)
           (@run_pre_install Toy.tails Toy.config "tails" Toy.consenting).2);
    [vm_compute; reflexivity | exact Hran].
Defined.

Lemma mixed_manual_not_nil :
  (@chek_can_install (@PKGS Toy.mixed) "arch").2 ≠ [].
Proof. vm_compute. discriminate. Qed.

Lemma check_deps_manual_block_witness :
  @probe_for Toy.arch (@PKGS Toy.mixed) [] Toy.blank_on_plain
  = (Ret (@PKGS Toy.mixed), (@probe_for Toy.arch (@PKGS Toy.mixed) [] Toy.blank_on_plain).2)
  ∧ chek_can_install (@PKGS Toy.mixed) "arch"
    = ((chek_can_install (@PKGS Toy.mixed) "arch").1,
       (chek_can_install (@PKGS Toy.mixed) "arch").2)
  ∧ (chek_can_install (@PKGS Toy.mixed) "arch").1 = [Toy.argon2_pkg]
  ∧ (chek_can_install (@PKGS Toy.mixed) "arch").2 ≠ []
  ∧ stdin Toy.blank_on_plain = Line EmptyString :: []
  ∧ ∃ w',
      @check_deps_turn Toy.arch Toy.mixed "arch" false Toy.blank_on_plain
      = (Ret (inl true), w')
      ∧ spawned (log w')
        = spawned (log (@probe_for Toy.arch (@PKGS Toy.mixed) [] Toy.blank_on_plain).2)
      ∧ PRE_INSTALL_RUNNED w' = PRE_INSTALL_RUNNED Toy.blank_on_plain
      ∧ stdin w' = []
      ∧ fs w' = fs (@probe_for Toy.arch (@PKGS Toy.mixed) [] Toy.blank_on_plain).2.
Proof.
  split; [vm_compute; reflexivity|]. split; [vm_compute; reflexivity|].
  split; [vm_compute; reflexivity|]. split; [exact mixed_manual_not_nil|].
  split; [reflexivity|].
  apply (@check_deps_manual_block Toy.arch Toy.mixed "arch" false Toy.blank_on_plain
           (@PKGS Toy.mixed)
           (@probe_for Toy.arch (@PKGS Toy.mixed) [] Toy.blank_on_plain).2
           (chek_can_install (@PKGS Toy.mixed) "arch").1
           (chek_can_install (@PKGS Toy.mixed) "arch").2
           EmptyString []);
    [vm_compute; reflexivity | vm_compute; reflexivity
     | exact mixed_manual_not_nil | reflexivity].
Defined.

Lemma check_deps_turn_reads_witness :
  @check_deps_turn Toy.arch Toy.mixed "arch" false Toy.blank_on_plain
  = (Ret (inl true),
     (@check_deps_turn Toy.arch Toy.mixed "arch" false Toy.blank_on_plain).2)
  ∧ (length (stdin (@check_deps_turn Toy.arch Toy.mixed "arch" false
                      Toy.blank_on_plain).2)
     < length (stdin Toy.blank_on_plain))%nat.
Proof.
  split; [vm_compute; reflexivity|].
  apply (@check_deps_turn_reads Toy.arch Toy.mixed "arch" false true Toy.blank_on_plain
           (@check_deps_turn Toy.arch Toy.mixed "arch" false Toy.blank_on_plain).2).
  vm_compute; reflexivity.
Defined.

Lemma init_swallows_interrupt_witness :
  @check_os Toy.tails Toy.interrupted_on_tails
  = (Ret true, (@check_os Toy.tails Toy.interrupted_on_tails).2)
  ∧ (@check_deps Toy.tails Toy.config 2 (@check_os Toy.tails Toy.interrupted_on_tails).2).1
    = Raise KeyboardInterrupt
  ∧ (@init Toy.tails Toy.config 2 Toy.interrupted_on_tails).1 = Ret true
  ∧ (@init Toy.tails Toy.config 2 Toy.interrupted_on_tails).1 ≠ Raise KeyboardInterrupt
  ∧ (∀ w2,
       @check_deps Toy.tails Toy.config 2 (@check_os Toy.tails Toy.interrupted_on_tails).2
       = (Raise KeyboardInterrupt, w2) →
       ∃ l, @init Toy.tails Toy.config 2 Toy.interrupted_on_tails
            = (Ret true, add_log l w2)
            ∧ length l = 2%nat ∧ spawned l = [])
  ∧ (∀ b w2,
       @check_deps Toy.tails Toy.config 2 (@check_os Toy.tails Toy.interrupted_on_tails).2
       = (Ret b, w2) →
       @init Toy.tails Toy.config 2 Toy.interrupted_on_tails = (Ret b, w2)).
Proof.
  split; [vm_compute; reflexivity|]. split; [vm_compute; reflexivity|].
  split; [vm_compute; reflexivity|].
  apply (@init_swallows_interrupt Toy.tails Toy.config 2 Toy.interrupted_on_tails
           (@check_os Toy.tails Toy.interrupted_on_tails).2).
  vm_compute; reflexivity.
Defined.

(** On a machine where [ykman ykman] exits with 0 the answer is still the
    plain one. *)
Example get_ykman_cmd_on_appimage :
  returncode (@Popen Toy.agreeable "ykman ykman" false ∅).1 = 0
  ∧ (@get_ykman_cmd Toy.agreeable None Toy.idle).1.1 = Ret "ykman".
Proof. split; vm_compute; reflexivity. Qed.
